(** * D6F-PH differential pressure sensor driver (d6f_ph.py)

    A shallow embedding of the MicroPython driver class [D6F_PH] and the
    properties of its measurement protocol and conversion pipeline.

    Conventions of the embedding.
    - Python [int] is [Z] (unbounded, two's complement bit operations).
    - [bytes] / [bytearray] are [list byte].
    - Python's true division [/] yields a float.  The numeric methods are
      given twice: in exact rational arithmetic [Q] (results compared with
      [==]), which states the formulas and bounds, and in IEEE binary64
      (module [Binary64], on the Standard Library's [SpecFloat]), which is
      what a double-precision Python computes, rounding and overflow
      included.
    - A method is a function on the driver object, which carries the I2C bus
      it was given; an exception is an explicit [Raise] outcome. *)

From Stdlib Require Import ZArith QArith List String Bool Lia Lqa.
From Stdlib Require Import SpecFloat.
From Stdlib.Strings Require Import Byte.
Import ListNotations.
Local Open Scope Z_scope.

(** ** Python values, exceptions and outcomes *)

(** The values a caller can pass as [pressure_range]. *)
Inductive pyval : Type :=
| PyStr (s : string)
| PyInt (z : Z)
| PyBool (b : bool)
| PyFloat (q : Q)
| PyNone.

(** [isinstance(v, str)] *)
Definition isinstance_str (v : pyval) : bool :=
  match v with PyStr _ => true | _ => false end.

(** [isinstance(v, int)]; [bool] is a subclass of [int]. *)
Definition isinstance_int (v : pyval) : bool :=
  match v with PyInt _ | PyBool _ => true | _ => false end.

(** The integer held by an [int] object ([True] is 1, [False] is 0). *)
Definition int_value (v : pyval) : Z :=
  match v with PyInt z => z | PyBool b => Z.b2z b | _ => 0 end.

Inductive exn : Type :=
| Exception (msg : string)
| UnboundLocalError (name : string)
| TypeError (msg : string)
| IndexError (msg : string)
| OverflowError (msg : string).

Inductive result (A : Type) : Type :=
| Return (a : A)
| Raise (e : exn).
Arguments Return {A} a.
Arguments Raise {A} e.

(** ** The I2C bus and the timeline of external effects *)

Inductive event : Type :=
| Writeto (addr : Z) (buf : list byte)
| ReadfromMemInto (addr memaddr : Z) (nbytes : nat)
| SleepMs (ms : Z)
| ConsolePrint (buf : list byte) (crc : Z).

(** The bus object: [sensor k i] is byte [i] of the device's answer to the
    [k]-th block read, [nreads] counts the block reads done so far and
    [trace] is the chronological log of bus transactions (the delay and the
    diagnostic print are logged on the same timeline).  Every transaction
    completes: transport errors, which the driver neither raises nor
    catches, are outside this model, and what is proved about a sequence of
    transactions is about a bus that answers. *)
Record I2C : Type := mkI2C {
  sensor : nat -> nat -> byte;
  nreads : nat;
  trace : list event
}.

Definition log (e : event) (bus : I2C) : I2C :=
  mkI2C (sensor bus) (nreads bus) (trace bus ++ [e]).

(** [i2c.writeto(addr, buf)] *)
Definition writeto (bus : I2C) (addr : Z) (buf : list byte) : I2C :=
  log (Writeto addr buf) bus.

(** [i2c.readfrom_mem_into(addr, memaddr, buf)]: fills all of [buf]. *)
Definition readfrom_mem_into (bus : I2C) (addr memaddr : Z) (buf : list byte)
  : list byte * I2C :=
  (map (sensor bus (nreads bus)) (seq 0 (List.length buf)),
   mkI2C (sensor bus) (S (nreads bus))
         (trace bus ++ [ReadfromMemInto addr memaddr (List.length buf)])).

(** ** The driver object *)

(** The two transfer functions [getattr] can select. *)
Inductive method : Type := MODE_P | MODE_PN.

Record D6F_PH : Type := mkD6F_PH {
  _i2c : I2C;
  _addr : Z;
  _pres_range : Z;
  _pres_func : method;
  _offset : Z;
  en_crc : bool;
  _buffer : list byte
}.

Definition _I2C_ADDRESS : Z := 0x6c.

Definition _PRESSURE_RANGE : list (string * Z) :=
  [("0505"%string, 100); ("0025"%string, 250); ("5050"%string, 1000)].

(** [dict.get] on an association list. *)
Fixpoint dict_get (d : list (string * Z)) (k : string) : option Z :=
  match d with
  | [] => None
  | (k', v) :: rest => if String.eqb k k' then Some v else dict_get rest k
  end.

(** ** Methods as state transformers with exceptions *)

Definition M (A : Type) : Type := D6F_PH -> result A * D6F_PH.

Definition ret {A} (a : A) : M A := fun self => (Return a, self).
Definition raise {A} (e : exn) : M A := fun self => (Raise e, self).
Definition bind {A B} (m : M A) (k : A -> M B) : M B :=
  fun self =>
    match m self with
    | (Return a, self') => k a self'
    | (Raise e, self') => (Raise e, self')
    end.

(** Reading an attribute of [self]. *)
Definition gets {A} (f : D6F_PH -> A) : M A :=
  fun self => (Return (f self), self).

Declare Scope py_scope.
Delimit Scope py_scope with py.
Notation "x <- m ;; k" := (bind m (fun x => k))
  (at level 61, m at next level, right associativity) : py_scope.
Notation "m ;; k" := (bind m (fun _ => k))
  (at level 61, right associativity) : py_scope.
Local Open Scope py_scope.

Definition set_i2c (bus : I2C) (self : D6F_PH) : D6F_PH :=
  mkD6F_PH bus (_addr self) (_pres_range self) (_pres_func self)
           (_offset self) (en_crc self) (_buffer self).

Definition set_buffer (buf : list byte) (self : D6F_PH) : D6F_PH :=
  mkD6F_PH (_i2c self) (_addr self) (_pres_range self) (_pres_func self)
           (_offset self) (en_crc self) buf.

(** [self._i2c.writeto(self._addr, buf)] *)
Definition i2c_writeto (buf : list byte) : M unit :=
  fun self => (Return tt, set_i2c (writeto (_i2c self) (_addr self) buf) self).

(** [self._i2c.readfrom_mem_into(self._addr, memaddr, self._buffer)] *)
Definition i2c_readfrom_mem_into (memaddr : Z) : M unit :=
  fun self =>
    let (buf, bus) :=
      readfrom_mem_into (_i2c self) (_addr self) memaddr (_buffer self) in
    (Return tt, set_buffer buf (set_i2c bus self)).

(** [sleep_ms(ms)] *)
Definition sleep_ms (ms : Z) : M unit :=
  fun self => (Return tt, set_i2c (log (SleepMs ms) (_i2c self)) self).

(** [print(self._buffer, hex(crc))] *)
Definition print_buffer (crc : Z) : M unit :=
  fun self =>
    (Return tt,
     set_i2c (log (ConsolePrint (_buffer self) crc) (_i2c self)) self).

(** ** Transfer functions *)

(** [(output_decimal - 1024) * self._pres_range / 60000] *)
Definition _PRESSURE_MODE_P (self : D6F_PH) (output_decimal : Z) : Q :=
  (inject_Z ((output_decimal - 1024) * _pres_range self) / inject_Z 60000)%Q.

(** [(output_decimal - 1024) * self._pres_range / 60000 - self._pres_range / 2] *)
Definition _PRESSURE_MODE_PN (self : D6F_PH) (output_decimal : Z) : Q :=
  (inject_Z ((output_decimal - 1024) * _pres_range self) / inject_Z 60000
   - inject_Z (_pres_range self) / inject_Z 2)%Q.

(** [(output_decimal - 10214) * 100 / 3739] *)
Definition _temp_celsius (output_decimal : Z) : Q :=
  (inject_Z ((output_decimal - 10214) * 100) / inject_Z 3739)%Q.

(** Calling the bound method stored in [self._pres_func]. *)
Definition call_pres_func (self : D6F_PH) (output_decimal : Z) : Q :=
  match _pres_func self with
  | MODE_P => _PRESSURE_MODE_P self output_decimal
  | MODE_PN => _PRESSURE_MODE_PN self output_decimal
  end.

(** ** Construction *)

Definition _get_pres_func (pres_range : pyval) : result method :=
  if isinstance_int pres_range then
    if int_value pres_range =? 250 then Return MODE_P
    else if (int_value pres_range =? 100) || (int_value pres_range =? 1000)
         then Return MODE_PN
         else (* [func] was never assigned *)
           Raise (UnboundLocalError "func")
  else Raise (Exception "Error: Incorrect pressure range.").

Definition _get_pres_range (pressure_range : pyval) : result pyval :=
  match pressure_range with
  | PyStr s =>
      match dict_get _PRESSURE_RANGE s with
      | Some v => Return (PyInt v)
      | None => (* falls off the end of the function *) Return PyNone
      end
  | _ => Raise (Exception "Error: Incorrect pressure range setting.")
  end.

Definition __init__ (i2c_obj : I2C) (address : Z) (pressure_range : pyval)
    (en_crc_arg : bool) (offset : Z) : result D6F_PH :=
  match (if isinstance_str pressure_range
         then _get_pres_range pressure_range
         else Return pressure_range) with
  | Raise e => Raise e
  | Return pres_range =>
      match _get_pres_func pres_range with
      | Raise e => Raise e
      | Return func =>
          let bus := writeto i2c_obj address [x0b; x00] in
          if en_crc_arg then
            Return (mkD6F_PH
                      (writeto bus address [x00; xd0; x49; x18; x02])
                      address (int_value pres_range) func offset true
                      [x00; x00; x00])
          else
            Return (mkD6F_PH bus address (int_value pres_range) func offset
                             false [x00; x00])
      end
  end.

(** ** Checksum *)

Definition byte_val (b : byte) : Z := Z.of_N (Byte.to_N b).

(** One pass of the inner loop:
    [crc = (crc << 1) ^ poly if crc & 0x80 else crc << 1] *)
Definition crc8_bit (poly crc : Z) : Z :=
  if Z.land crc 0x80 =? 0 then Z.shiftl crc 1
  else Z.lxor (Z.shiftl crc 1) poly.

(** The body of the outer loop for one input byte. *)
Definition crc8_byte (poly crc : Z) (b : byte) : Z :=
  Z.land (Nat.iter 8 (crc8_bit poly) (Z.lxor crc (byte_val b))) 0xff.

Definition crc8 (byte_array : list byte) (poly init : Z) : Z :=
  Z.lxor (fold_left (crc8_byte poly) byte_array init) 0x00.

(** The defaults of the signature [crc8(self, byte_array, poly=0x131, init=0x00)]. *)
Definition crc8_default (byte_array : list byte) : Z :=
  crc8 byte_array 0x131 0x00.

(** ** Reading *)

(** [int.from_bytes(b, 'big')] *)
Definition int_from_bytes_big (b : list byte) : Z :=
  fold_left (fun acc x => acc * 256 + byte_val x) b 0.

(** The guard
    [self.en_crc and ((crc := self.crc8(self._buffer[:2])) != self._buffer[2])];
    it returns the computed checksum when the guard is true. *)
Definition crc_mismatch : M (option Z) :=
  fun self =>
    if en_crc self then
      let crc := crc8_default (firstn 2 (_buffer self)) in
      match nth_error (_buffer self) 2 with
      | None => (Raise (IndexError "bytearray index out of range"), self)
      | Some b => if crc =? byte_val b then (Return None, self)
                  else (Return (Some crc), self)
      end
    else (Return None, self).

Definition read_raw : M (option (Z * Z)) :=
  i2c_writeto [x00; xd0; x40; x18; x06] ;;
  sleep_ms 33 ;;
  i2c_writeto [x00; xd0; x51; x2c] ;;
  i2c_readfrom_mem_into 0x07 ;;
  bad <- crc_mismatch ;;
  match bad with
  | Some crc => print_buffer crc ;; ret None
  | None =>
      buf <- gets _buffer ;;
      offset <- gets _offset ;;
      let raw_pres := int_from_bytes_big (firstn 2 buf) - offset in
      i2c_writeto [x00; xd0; x61; x2c] ;;
      i2c_readfrom_mem_into 0x07 ;;
      bad <- crc_mismatch ;;
      match bad with
      | Some crc => print_buffer crc ;; ret None
      | None =>
          buf <- gets _buffer ;;
          let raw_temp := int_from_bytes_big (firstn 2 buf) in
          ret (Some (raw_pres, raw_temp))
      end
  end.

Definition read : M (option (Q * Q)) :=
  raw_counts <- read_raw ;;
  match raw_counts with
  | None => ret None
  | Some (raw_pres, raw_temp) =>
      let temp := _temp_celsius raw_temp in
      pres <- gets (fun self => call_pres_func self raw_pres) ;;
      ret (Some (pres, temp))
  end.

(** The error of unpacking [None] into two names. *)
Definition unpack_error : exn :=
  TypeError "cannot unpack non-iterable NoneType object".

(** [pa, _ = self.read()] raises when [read] returned [None]. *)
Definition read_pa : M Q :=
  r <- read ;;
  match r with
  | Some (pa, _) => ret pa
  | None => raise unpack_error
  end.

Definition read_psi : M Q :=
  pa <- read_pa ;; ret (pa / 6894.75729)%Q.

Definition read_hpa : M Q :=
  pa <- read_pa ;; ret (pa / inject_Z 100)%Q.

Definition read_temp_c : M Q :=
  r <- read ;;
  match r with
  | Some (_, temp) => ret temp
  | None => raise unpack_error
  end.

Definition read_temp_f : M Q :=
  temp <- read_temp_c ;; ret (temp * 1.8 + inject_Z 32)%Q.


(** ** The numeric methods in IEEE binary64

    Python's [/] on two ints is true division: the exact quotient rounded
    once to the nearest double (ties to even), with [OverflowError] when it
    is too large for a double; [-], [*] and [/] on floats are the IEEE
    operations.  This module evaluates the transfer functions and the
    conversions that way; it shares the driver object and the integer-only
    [read_raw] with the definitions above. *)
Definition division_overflow : exn :=
  OverflowError "integer division result too large for a float".

Module Binary64.

Definition float : Type := spec_float.

(** A Python int as an exact operand of a division. *)
Definition exact (z : Z) : float :=
  match z with
  | Z0 => S754_zero false
  | Zpos p => S754_finite false p 0
  | Zneg p => S754_finite true p 0
  end.

(** [a / b] for ints [a] and [b > 0]. *)
Definition int_truediv (a : Z) (b : positive) : result float :=
  match SFdiv 53 1024 (exact a) (exact (Zpos b)) with
  | S754_infinity _ => Raise division_overflow
  | q => Return q
  end.

(** [float(z)] for a small constant [z]. *)
Definition of_int (z : Z) : float := binary_normalize 53 1024 z 0 false.

(** A decimal literal [num/den], rounded to the nearest double. *)
Definition literal (num : Z) (den : positive) : float :=
  SFdiv 53 1024 (exact num) (exact (Zpos den)).

Definition fadd : float -> float -> float := SFadd 53 1024.
Definition fsub : float -> float -> float := SFsub 53 1024.
Definition fmul : float -> float -> float := SFmul 53 1024.
Definition fdiv : float -> float -> float := SFdiv 53 1024.


Definition result_bind {A B} (r : result A) (k : A -> result B) : result B :=
  match r with
  | Return a => k a
  | Raise e => Raise e
  end.

(** [(output_decimal - 1024) * self._pres_range / 60000] *)
Definition _PRESSURE_MODE_P (self : D6F_PH) (output_decimal : Z)
  : result float :=
  int_truediv ((output_decimal - 1024) * _pres_range self) 60000.

(** [(output_decimal - 1024) * self._pres_range / 60000
     - self._pres_range / 2] *)
Definition _PRESSURE_MODE_PN (self : D6F_PH) (output_decimal : Z)
  : result float :=
  result_bind
    (int_truediv ((output_decimal - 1024) * _pres_range self) 60000)
    (fun scaled =>
       result_bind (int_truediv (_pres_range self) 2)
                   (fun half => Return (fsub scaled half))).

(** [(output_decimal - 10214) * 100 / 3739] *)
Definition _temp_celsius (output_decimal : Z) : result float :=
  int_truediv ((output_decimal - 10214) * 100) 3739.

Definition call_pres_func (self : D6F_PH) (output_decimal : Z)
  : result float :=
  match _pres_func self with
  | MODE_P => _PRESSURE_MODE_P self output_decimal
  | MODE_PN => _PRESSURE_MODE_PN self output_decimal
  end.

Definition read : M (option (float * float)) :=
  raw_counts <- read_raw ;;
  match raw_counts with
  | None => ret None
  | Some (raw_pres, raw_temp) =>
      temp <- (fun self => (_temp_celsius raw_temp, self)) ;;
      pres <- (fun self => (call_pres_func self raw_pres, self)) ;;
      ret (Some (pres, temp))
  end.

Definition read_pa : M float :=
  r <- read ;;
  match r with
  | Some (pa, _) => ret pa
  | None => raise unpack_error
  end.

(** [pa / 6894.75729] *)
Definition psi_of_pa (pa : float) : float :=
  fdiv pa (literal 689475729 100000).

(** [pa / 100] *)
Definition hpa_of_pa (pa : float) : float := fdiv pa (of_int 100).

(** [temp * 1.8 + 32] *)
Definition fahrenheit_of_celsius (temp : float) : float :=
  fadd (fmul temp (literal 18 10)) (of_int 32).

Definition read_psi : M float :=
  pa <- read_pa ;; ret (psi_of_pa pa).

Definition read_hpa : M float :=
  pa <- read_pa ;; ret (hpa_of_pa pa).

Definition read_temp_c : M float :=
  r <- read ;;
  match r with
  | Some (_, temp) => ret temp
  | None => raise unpack_error
  end.

Definition read_temp_f : M float :=
  temp <- read_temp_c ;; ret (fahrenheit_of_celsius temp).

End Binary64.

(** ** Reference definitions used to state the properties *)

(** The states the public interface can produce: a freshly constructed
    driver, and whatever a measurement leaves behind. *)
Inductive reachable : D6F_PH -> Prop :=
| reach_init i2c_obj address pressure_range en offset self :
    __init__ i2c_obj address pressure_range en offset = Return self ->
    reachable self
| reach_read_raw self :
    reachable self -> reachable (snd (read_raw self)).

(** The buffer has the size [__init__] allocated for the checksum mode. *)
Definition buffer_sized (self : D6F_PH) : Prop :=
  List.length (_buffer self) = (if en_crc self then 3 else 2)%nat.

(** The transfer function is the one [_get_pres_func] selects for the range. *)
Definition func_selected (self : D6F_PH) : Prop :=
  (_pres_range self = 250 /\ _pres_func self = MODE_P) \/
  ((_pres_range self = 100 \/ _pres_range self = 1000) /\
   _pres_func self = MODE_PN).

(** What the sensor will put into the buffer on the next block read
    (the pressure registers) and on the one after it (the temperature
    registers). *)
Definition pressure_answer (self : D6F_PH) : list byte :=
  map (sensor (_i2c self) (nreads (_i2c self)))
      (seq 0 (List.length (_buffer self))).

Definition temperature_answer (self : D6F_PH) : list byte :=
  map (sensor (_i2c self) (S (nreads (_i2c self))))
      (seq 0 (List.length (_buffer self))).

(** The checksum guard of [read_raw] on a received buffer of the allocated
    size (three bytes whenever checksums are enabled). *)
Definition checksum_fails (self : D6F_PH) (buf : list byte) : bool :=
  en_crc self
  && negb (crc8_default (firstn 2 buf) =? byte_val (nth 2 buf x00)).

(** The driver after a stretch of activity: [k] more block reads done,
    [evs] appended to the timeline, [buf] left in the buffer. *)
Definition advanced (self : D6F_PH) (k : nat) (evs : list event)
    (buf : list byte) : D6F_PH :=
  mkD6F_PH (mkI2C (sensor (_i2c self)) (k + nreads (_i2c self))
                  (trace (_i2c self) ++ evs))
           (_addr self) (_pres_range self) (_pres_func self) (_offset self)
           (en_crc self) buf.

(** The first four steps of every measurement. *)
Definition pressure_phase (self : D6F_PH) : list event :=
  [Writeto (_addr self) [x00; xd0; x40; x18; x06];
   SleepMs 33;
   Writeto (_addr self) [x00; xd0; x51; x2c];
   ReadfromMemInto (_addr self) 0x07 (List.length (_buffer self))].

(** The two steps that fetch the temperature registers. *)
Definition temperature_phase (self : D6F_PH) : list event :=
  [Writeto (_addr self) [x00; xd0; x61; x2c];
   ReadfromMemInto (_addr self) 0x07 (List.length (_buffer self))].

(** *** The checksum as the specification describes it *)

(** "Shift left one bit and XOR with the polynomial when the register's top
    bit (0x80) is set, else only shift left." *)
Definition spec_shift (poly reg : Z) : Z :=
  if Z.testbit reg 7 then Z.lxor (Z.shiftl reg 1) poly else Z.shiftl reg 1.

Fixpoint spec_rounds (n : nat) (poly reg : Z) : Z :=
  match n with
  | O => reg
  | S k => spec_rounds k poly (spec_shift poly reg)
  end.

(** "Starting from the initial value, for each input byte XOR the byte into
    the running register, then 8 iterations of the shift; mask to 8 bits
    after each byte; the result is the final register." *)
Fixpoint crc8_spec (bytes : list byte) (poly reg : Z) : Z :=
  match bytes with
  | [] => reg
  | b :: rest =>
      crc8_spec rest poly
        (Z.land (spec_rounds 8 poly (Z.lxor reg (byte_val b))) 0xff)
  end.

(** The same computation on a register that never leaves 8 bits, with the
    polynomial byte (0x131 truncated to 8 bits is 0x31). *)
Definition reg8_shift (poly8 reg : Z) : Z := spec_shift poly8 reg mod 256.

Fixpoint crc8_reg8 (bytes : list byte) (poly8 reg : Z) : Z :=
  match bytes with
  | [] => reg
  | b :: rest =>
      crc8_reg8 rest poly8
        (Nat.iter 8 (reg8_shift poly8) (Z.lxor reg (byte_val b)))
  end.

(** *** The standard CRC-8/Maxim (Dallas 1-Wire) checksum

    Catalogue parameters of CRC-8/MAXIM-DOW: width 8, polynomial 0x31,
    initial value 0x00, input and output reflected, no final XOR; the
    register is shifted right and the reflected polynomial is 0x8C.  Its
    check value on the ASCII string 123456789 is 0xA1. *)
Definition maxim_shift (reg : Z) : Z :=
  if Z.testbit reg 0 then Z.lxor (Z.shiftr reg 1) 0x8C else Z.shiftr reg 1.

Definition crc8_maxim (bytes : list byte) : Z :=
  fold_left (fun reg b => Nat.iter 8 maxim_shift (Z.lxor reg (byte_val b)))
            bytes 0.

(** First row of the published Dallas/Maxim lookup table (bytes 0 to 15). *)
Definition maxim_table_row0 : list Z :=
  [0; 94; 188; 226; 97; 63; 221; 131; 194; 156; 126; 32; 163; 253; 31; 65].

(** *** Construction that succeeds *)

(** The object [__init__] builds once range and transfer function are
    settled. *)
Definition constructed (i2c_obj : I2C) (address full_scale : Z)
    (en : bool) (offset : Z) : D6F_PH :=
  let func := if full_scale =? 250 then MODE_P else MODE_PN in
  let bus := writeto i2c_obj address [x0b; x00] in
  if en then
    mkD6F_PH (writeto bus address [x00; xd0; x49; x18; x02])
             address full_scale func offset true [x00; x00; x00]
  else
    mkD6F_PH bus address full_scale func offset false [x00; x00].

Definition is_full_scale (z : Z) : bool :=
  (z =? 100) || (z =? 250) || (z =? 1000).

(** *** Bus transactions and sample sensors *)

(** The diagnostic print is the only logged event that is not a bus
    transaction or the delay. *)
Definition is_bus_transaction (e : event) : bool :=
  match e with
  | ConsolePrint _ _ => false
  | _ => true
  end.

(** A sensor that answers the first block read with 00 00 01: the CRC-8 of
    00 00 is 00, so the appended byte is wrong. *)
Definition corrupt_pressure_sensor (k i : nat) : byte :=
  match k, i with
  | O, 2%nat => x01
  | _, _ => x00
  end.

(** A sensor whose first answer is 04 00 (1024) and second 27 E6 (10214). *)
Definition midpoint_sensor (k i : nat) : byte :=
  match k, i with
  | 0%nat, 0%nat => x04
  | 1%nat, 0%nat => x27
  | 1%nat, 1%nat => xe6
  | _, _ => x00
  end.

(** The same two answers followed by their checksum bytes 83 and 15. *)
Definition checked_midpoint_sensor (k i : nat) : byte :=
  match k, i with
  | 0%nat, 0%nat => x04
  | 0%nat, 2%nat => x83
  | 1%nat, 0%nat => x27
  | 1%nat, 1%nat => xe6
  | 1%nat, 2%nat => x15
  | _, _ => x00
  end.

(** A sensor whose first measurement is 37024 counts and 13953 counts
    (100 Pa and 100 degrees Celsius on the '5050' model) and whose second
    measurement is 31024 counts and 10214 counts (0 Pa, 0 degrees). *)
Definition two_sample_sensor (k i : nat) : byte :=
  match k, i with
  | 0%nat, 0%nat => x90
  | 0%nat, 1%nat => xa0
  | 1%nat, 0%nat => x36
  | 1%nat, 1%nat => x81
  | 2%nat, 0%nat => x79
  | 2%nat, 1%nat => x30
  | 3%nat, 0%nat => x27
  | 3%nat, 1%nat => xe6
  | _, _ => x00
  end.

(** *** The values of an 8-bit register *)

Definition register_values : list Z := map Z.of_nat (seq 0 256).

(** The eight shift rounds on an 8-bit register with the polynomial byte
    0x31: what one payload byte contributes to the default checksum. *)
Definition default_rounds (reg : Z) : Z := Nat.iter 8 (reg8_shift 0x31) reg.

(** ** Proof automation *)



(** ** Basic facts *)

Lemma byte_val_range (b : byte) : 0 <= byte_val b < 256.
Proof.
  unfold byte_val. pose proof (Byte.to_N_bounded b). lia.
Qed.

Lemma answer_length (f : nat -> byte) (n : nat) :
  List.length (map f (seq 0 n)) = n.
Proof. now rewrite length_map, length_seq. Qed.

(** The outcome of [read_raw], case by case. *)
Lemma read_raw_cases (self : D6F_PH) :
  buffer_sized self ->
  let b1 := pressure_answer self in
  let b2 := temperature_answer self in
  read_raw self =
    if checksum_fails self b1 then
      (Return None,
       advanced self 1
         (pressure_phase self
            ++ [ConsolePrint b1 (crc8_default (firstn 2 b1))]) b1)
    else if checksum_fails self b2 then
      (Return None,
       advanced self 2
         (pressure_phase self ++ temperature_phase self
            ++ [ConsolePrint b2 (crc8_default (firstn 2 b2))]) b2)
    else
      (Return (Some (int_from_bytes_big (firstn 2 b1) - _offset self,
                     int_from_bytes_big (firstn 2 b2))),
       advanced self 2 (pressure_phase self ++ temperature_phase self) b2).
Proof.
  destruct self as [[sens n tr] addr pr f off crc buf].
  unfold buffer_sized, pressure_answer, temperature_answer, checksum_fails,
    advanced, pressure_phase, temperature_phase.
  cbn [_buffer en_crc _i2c _addr _offset _pres_range _pres_func sensor nreads trace].
  intros Hlen.
  unfold read_raw, bind, i2c_writeto, sleep_ms, i2c_readfrom_mem_into,
    crc_mismatch, print_buffer, gets, ret, readfrom_mem_into, set_i2c,
    set_buffer, writeto, log.
  cbn [_buffer en_crc _i2c _addr _offset _pres_range _pres_func sensor nreads trace].
  destruct crc; rewrite ?Hlen;
    repeat
      (cbn [seq map List.length firstn nth_error nth andb negb
            _buffer en_crc _i2c _addr _offset _pres_range _pres_func
            sensor nreads trace Nat.add];
       try match goal with
           | |- context [crc8_default ?l =? ?b] =>
               destruct (crc8_default l =? b)
           end);
    rewrite <- ?app_assoc; reflexivity.
Qed.

Lemma advanced_buffer_sized self k evs buf :
  List.length buf = List.length (_buffer self) ->
  buffer_sized self -> buffer_sized (advanced self k evs buf).
Proof. unfold buffer_sized; cbn; congruence. Qed.

Lemma pressure_answer_length self :
  List.length (pressure_answer self) = List.length (_buffer self).
Proof. apply answer_length. Qed.

Lemma temperature_answer_length self :
  List.length (temperature_answer self) = List.length (_buffer self).
Proof. apply answer_length. Qed.

(** A measurement only touches the bus and the buffer. *)
Lemma read_raw_frame self :
  buffer_sized self ->
  exists k evs buf,
    snd (read_raw self) = advanced self k evs buf /\
    List.length buf = List.length (_buffer self).
Proof.
  intros Hs. rewrite (read_raw_cases self Hs).
  destruct (checksum_fails self (pressure_answer self));
    [|destruct (checksum_fails self (temperature_answer self))];
    cbn [snd]; do 3 eexists; split; try reflexivity;
    auto using pressure_answer_length, temperature_answer_length.
Qed.

Lemma init_invariant i2c_obj address pressure_range en offset self :
  __init__ i2c_obj address pressure_range en offset = Return self ->
  buffer_sized self /\ func_selected self.
Proof.
  unfold __init__, buffer_sized, func_selected.
  destruct (if isinstance_str pressure_range
            then _get_pres_range pressure_range
            else Return pressure_range) as [pres_range|e] eqn:Hrange;
    [|discriminate].
  unfold _get_pres_func.
  destruct (isinstance_int pres_range); [|discriminate].
  destruct (int_value pres_range =? 250) eqn:E250.
  - apply Z.eqb_eq in E250.
    destruct en; intros [= <-]; cbn; auto.
  - destruct ((int_value pres_range =? 100) || (int_value pres_range =? 1000))
      eqn:E; [|discriminate].
    apply orb_true_iff in E. rewrite !Z.eqb_eq in E.
    destruct en; intros [= <-]; cbn; auto.
Qed.

Lemma reachable_invariant self :
  reachable self -> buffer_sized self /\ func_selected self.
Proof.
  induction 1 as [? ? ? ? ? ? Hinit | self Hreach [Hsize Hfunc]].
  - eapply init_invariant; eassumption.
  - destruct (read_raw_frame self Hsize) as (k & evs & buf & -> & Hlen).
    split; [now apply advanced_buffer_sized|exact Hfunc].
Qed.

(** [read] in terms of [read_raw]. *)
Lemma read_unfold self :
  read self =
    match read_raw self with
    | (Return (Some (raw_pres, raw_temp)), self') =>
        (Return (Some (call_pres_func self' raw_pres, _temp_celsius raw_temp)),
         self')
    | (Return None, self') => (Return None, self')
    | (Raise e, self') => (Raise e, self')
    end.
Proof.
  unfold read, bind, gets, ret.
  destruct (read_raw self) as [[[[raw_pres raw_temp]|]|e] self']; reflexivity.
Qed.


(** ** The checksum *)

Lemma land_0x80 (x : Z) : (Z.land x 0x80 =? 0) = negb (Z.testbit x 7).
Proof.
  assert (H : Z.land x 0x80 = if Z.testbit x 7 then 0x80 else 0).
  { apply Z.bits_inj'. intros n Hn.
    rewrite Z.land_spec.
    change 0x80 with (2 ^ 7).
    destruct (Z.eq_dec n 7) as [->|Hne].
    - rewrite Z.pow2_bits_true by lia.
      destruct (Z.testbit x 7); [now rewrite Z.pow2_bits_true by lia|reflexivity].
    - rewrite Z.pow2_bits_false by lia. rewrite andb_false_r.
      destruct (Z.testbit x 7);
        [now rewrite Z.pow2_bits_false by lia|now rewrite Z.bits_0]. }
  rewrite H. now destruct (Z.testbit x 7).
Qed.

Lemma crc8_bit_spec_shift poly crc : crc8_bit poly crc = spec_shift poly crc.
Proof.
  unfold crc8_bit, spec_shift. rewrite land_0x80.
  now destruct (Z.testbit crc 7).
Qed.

Lemma iter_spec_rounds n poly crc :
  Nat.iter n (crc8_bit poly) crc = spec_rounds n poly crc.
Proof.
  revert crc. induction n as [|n IH]; intros crc; [reflexivity|].
  rewrite Nat.iter_succ_r. cbn [spec_rounds].
  now rewrite crc8_bit_spec_shift, IH.
Qed.

Lemma crc8_fold_spec bytes poly reg :
  fold_left (crc8_byte poly) bytes reg = crc8_spec bytes poly reg.
Proof.
  revert reg. induction bytes as [|b rest IH]; intros reg; [reflexivity|].
  cbn [fold_left crc8_spec]. rewrite IH. unfold crc8_byte.
  now rewrite iter_spec_rounds.
Qed.

Lemma land_0xff_range (x : Z) : 0 <= Z.land x 0xff <= 255.
Proof.
  change (Z.land x 0xff) with (Z.land x (Z.ones 8)).
  rewrite Z.land_ones by lia. change (2 ^ 8) with 256. pose proof (Z.mod_pos_bound x 256). lia.
Qed.

Lemma crc8_spec_range bytes poly reg :
  0 <= reg <= 255 -> 0 <= crc8_spec bytes poly reg <= 255.
Proof.
  revert reg. induction bytes as [|b rest IH]; intros reg Hreg; [exact Hreg|].
  cbn [crc8_spec]. apply IH, land_0xff_range.
Qed.

Lemma lxor_mod_256 (a b : Z) :
  Z.lxor a b mod 256 = Z.lxor (a mod 256) (b mod 256).
Proof.
  change 256 with (2 ^ 8). apply Z.bits_inj'. intros n Hn.
  rewrite Z.lxor_spec.
  destruct (Z.lt_ge_cases n 8).
  - now rewrite !Z.mod_pow2_bits_low, Z.lxor_spec by lia.
  - now rewrite !Z.mod_pow2_bits_high by lia.
Qed.

Lemma shiftl_1_mod_256 (a : Z) :
  Z.shiftl a 1 mod 256 = Z.shiftl (a mod 256) 1 mod 256.
Proof.
  change 256 with (2 ^ 8). apply Z.bits_inj'. intros n Hn.
  destruct (Z.lt_ge_cases n 8).
  - now rewrite !Z.mod_pow2_bits_low, !Z.shiftl_spec, Z.mod_pow2_bits_low
      by lia.
  - now rewrite !Z.mod_pow2_bits_high by lia.
Qed.

Lemma spec_shift_mod_256 (poly reg : Z) :
  spec_shift poly reg mod 256 = reg8_shift (poly mod 256) (reg mod 256).
Proof.
  unfold reg8_shift, spec_shift.
  replace (Z.testbit (reg mod 256) 7) with (Z.testbit reg 7)
    by (change 256 with (2 ^ 8); now rewrite Z.mod_pow2_bits_low by lia).
  destruct (Z.testbit reg 7).
  - rewrite (lxor_mod_256 (Z.shiftl reg 1)), shiftl_1_mod_256.
    rewrite (lxor_mod_256 (Z.shiftl (reg mod 256) 1)).
    now rewrite Z.mod_mod by lia.
  - apply shiftl_1_mod_256.
Qed.

Lemma spec_rounds_mod_256 n poly reg :
  spec_rounds n poly reg mod 256 =
  Nat.iter n (reg8_shift (poly mod 256)) (reg mod 256).
Proof.
  revert reg. induction n as [|n IH]; intros reg; [reflexivity|].
  cbn [spec_rounds]. rewrite IH, spec_shift_mod_256.
  now rewrite Nat.iter_succ_r.
Qed.

Lemma land_0xff_mod (x : Z) : Z.land x 0xff = x mod 256.
Proof.
  change 0xff with (Z.ones 8). now rewrite Z.land_ones by lia.
Qed.

Lemma reg8_rounds_range n poly8 reg :
  0 <= reg < 256 -> 0 <= Nat.iter n (reg8_shift poly8) reg < 256.
Proof.
  intros Hreg. induction n as [|n IH]; [exact Hreg|].
  cbn [Nat.iter nat_rect]. unfold reg8_shift at 1.
  apply Z.mod_pos_bound. lia.
Qed.

Lemma lxor_range_256 (a b : Z) :
  0 <= a < 256 -> 0 <= b < 256 -> 0 <= Z.lxor a b < 256.
Proof.
  intros Ha Hb.
  replace (Z.lxor a b) with (Z.lxor a b mod 256);
    [apply Z.mod_pos_bound; lia|].
  now rewrite lxor_mod_256, !Z.mod_small by lia.
Qed.

Lemma crc8_spec_reg8 bytes poly reg :
  0 <= reg < 256 ->
  crc8_spec bytes poly reg = crc8_reg8 bytes (poly mod 256) reg.
Proof.
  revert reg. induction bytes as [|b rest IH]; intros reg Hreg; [reflexivity|].
  cbn [crc8_spec crc8_reg8].
  pose proof (byte_val_range b) as Hb.
  rewrite land_0xff_mod, spec_rounds_mod_256, lxor_mod_256.
  rewrite (Z.mod_small reg), (Z.mod_small (byte_val b)) by lia.
  apply IH, reg8_rounds_range, lxor_range_256; lia.
Qed.

Lemma crc8_spec_reg8_cons b rest poly init :
  crc8_spec (b :: rest) poly init =
  crc8_reg8 (b :: rest) (poly mod 256) (init mod 256).
Proof.
  cbn [crc8_spec crc8_reg8].
  pose proof (byte_val_range b) as Hb.
  pose proof (Z.mod_pos_bound init 256 ltac:(lia)) as Hinit.
  rewrite land_0xff_mod, spec_rounds_mod_256, lxor_mod_256.
  rewrite (Z.mod_small (byte_val b)) by lia.
  apply crc8_spec_reg8, reg8_rounds_range, lxor_range_256; lia.
Qed.

(** C7. [crc8] is a function of its three arguments alone and, for every
    byte sequence, polynomial and initial value, computes what the
    specification describes: starting from the initial value, each byte is
    XORed into the register, followed by eight rounds of "shift left, and XOR
    with the polynomial when bit 0x80 was set", and a mask to 8 bits after
    each byte.  On a non-empty input this is the same as running an 8-bit
    register with the polynomial byte, and the result lies in 0..255. *)
Theorem crc8_computes_spec (b : byte) (rest : list byte) (poly init : Z) :
  (forall bytes, crc8 bytes poly init = crc8_spec bytes poly init)
  /\ crc8 (b :: rest) poly init
     = crc8_reg8 (b :: rest) (poly mod 256) (init mod 256)
  /\ 0 <= crc8 (b :: rest) poly init <= 255.
Proof.
  assert (Hspec : forall bytes, crc8 bytes poly init = crc8_spec bytes poly init).
  { intros bytes. unfold crc8. now rewrite Z.lxor_0_r, crc8_fold_spec. }
  split; [exact Hspec|].
  rewrite Hspec. split; [apply crc8_spec_reg8_cons|].
  cbn [crc8_spec]. apply crc8_spec_range, land_0xff_range.
Qed.

(** C2. With the default polynomial 0x131 and initial value 0x00, [crc8]
    shifts the register to the left (most significant bit first) and so does
    not return the standard CRC-8/Maxim value, which is computed with the
    register reflected: the reference reproduces the catalogue check value
    0xA1 and the first row of the published table, where the entry for the
    single byte 0x01 is 0x5E, while [crc8] returns 0x31 for that input (and
    0xA2 on the check string).  Both agree on [0x00, 0x00], where the value
    is 0. *)
Theorem crc8_default_is_not_maxim :
  crc8_maxim (list_byte_of_string "123456789") = 0xA1
  /\ map (fun b => crc8_maxim [b])
         [x00; x01; x02; x03; x04; x05; x06; x07;
          x08; x09; x0a; x0b; x0c; x0d; x0e; x0f] = maxim_table_row0
  /\ crc8_maxim [x01] = 0x5E
  /\ crc8_default [x01] = 0x31
  /\ crc8_default [x01] <> crc8_maxim [x01]
  /\ crc8_default (list_byte_of_string "123456789") = 0xA2
  /\ crc8_default [x00; x00] = 0
  /\ crc8_maxim [x00; x00] = 0.
Proof.
  repeat split; try reflexivity.
  vm_compute. discriminate.
Qed.

(** ** Construction *)

Lemma init_int i2c_obj address z en offset :
  __init__ i2c_obj address (PyInt z) en offset =
    if is_full_scale z
    then Return (constructed i2c_obj address z en offset)
    else Raise (UnboundLocalError "func").
Proof.
  unfold __init__, _get_pres_func, is_full_scale, constructed.
  cbn [isinstance_str isinstance_int int_value].
  destruct (z =? 250) eqn:E250.
  - rewrite orb_true_r. cbn [orb]. now destruct en.
  - rewrite orb_false_r.
    destruct ((z =? 100) || (z =? 1000)); [now destruct en|reflexivity].
Qed.

Lemma init_str i2c_obj address s en offset :
  __init__ i2c_obj address (PyStr s) en offset =
    match dict_get _PRESSURE_RANGE s with
    | Some v => Return (constructed i2c_obj address v en offset)
    | None => Raise (Exception "Error: Incorrect pressure range.")
    end.
Proof.
  unfold __init__. cbn [isinstance_str _get_pres_range].
  unfold _PRESSURE_RANGE. cbn [dict_get].
  destruct (String.eqb s "0505"); [now destruct en|].
  destruct (String.eqb s "0025"); [now destruct en|].
  destruct (String.eqb s "5050"); [now destruct en|reflexivity].
Qed.

(** C3. What construction does for every kind of [pressure_range] argument.
    The three model strings and the integers 100, 250 and 1000 produce a
    driver; an unrecognized string, a float and [None] raise the driver's
    [Exception('Error: Incorrect pressure range.')].  An integer outside
    {100, 250, 1000} (500, a negative value, a [bool]) does not reach that
    [raise]: it aborts with [UnboundLocalError] on the unassigned local
    [func]. *)
Theorem construction_outcomes (i2c_obj : I2C) (address : Z) (en : bool)
    (offset : Z) :
  (forall z,
      __init__ i2c_obj address (PyInt z) en offset =
        if is_full_scale z
        then Return (constructed i2c_obj address z en offset)
        else Raise (UnboundLocalError "func"))
  /\ (forall s,
      __init__ i2c_obj address (PyStr s) en offset =
        match dict_get _PRESSURE_RANGE s with
        | Some v => Return (constructed i2c_obj address v en offset)
        | None => Raise (Exception "Error: Incorrect pressure range.")
        end)
  /\ (forall b,
      __init__ i2c_obj address (PyBool b) en offset =
        Raise (UnboundLocalError "func"))
  /\ (forall q,
      __init__ i2c_obj address (PyFloat q) en offset =
        Raise (Exception "Error: Incorrect pressure range."))
  /\ __init__ i2c_obj address PyNone en offset =
       Raise (Exception "Error: Incorrect pressure range.")
  /\ map (dict_get _PRESSURE_RANGE) ["0505"; "0025"; "5050"; "1000"]%string
     = [Some 100; Some 250; Some 1000; None]
  /\ map is_full_scale [100; 250; 1000; 500; 0; -100]
     = [true; true; true; false; false; false]
  /\ __init__ i2c_obj address (PyInt 500) en offset =
       Raise (UnboundLocalError "func").
Proof.
  split; [intros z; apply init_int|].
  split; [intros s; apply init_str|].
  split; [now intros [|]|].
  repeat split; try reflexivity.
Qed.

(** ** Checksum failures *)

Lemma read_raw_mismatch self :
  buffer_sized self ->
  checksum_fails self (pressure_answer self) = true
  \/ checksum_fails self (temperature_answer self) = true ->
  exists self', read_raw self = (Return None, self').
Proof.
  intros Hsize Hfail. rewrite (read_raw_cases self Hsize).
  destruct (checksum_fails self (pressure_answer self)); [eauto|].
  destruct Hfail as [Hfail|Hfail]; [discriminate|].
  rewrite Hfail. eauto.
Qed.

(** What every reading method makes of an absent raw reading. *)
Lemma absent_raw_reading self self' :
  read_raw self = (Return None, self') ->
  read self = (Return None, self')
  /\ read_pa self = (Raise unpack_error, self')
  /\ read_psi self = (Raise unpack_error, self')
  /\ read_hpa self = (Raise unpack_error, self')
  /\ read_temp_c self = (Raise unpack_error, self')
  /\ read_temp_f self = (Raise unpack_error, self').
Proof.
  intros Hraw.
  assert (Hread : read self = (Return None, self'))
    by (now rewrite read_unfold, Hraw).
  unfold read_psi, read_hpa, read_temp_f, read_pa, read_temp_c, bind, raise.
  rewrite Hread. repeat split; reflexivity.
Qed.

(** C1. When checksums are enabled and the CRC-8 of the first two buffer
    bytes differs from the third on the pressure or on the temperature
    sub-read, the raw read and the calibrated read report the absent outcome
    [None].  The convenience conversions do not: [read_pa] and
    [read_temp_c] unpack that [None] and raise [TypeError], which [read_psi],
    [read_hpa] and [read_temp_f] pass on. *)
Theorem checksum_mismatch_outcome (self : D6F_PH) :
  reachable self ->
  checksum_fails self (pressure_answer self) = true
  \/ checksum_fails self (temperature_answer self) = true ->
  fst (read_raw self) = Return None
  /\ fst (read self) = Return None
  /\ fst (read_pa self) = Raise unpack_error
  /\ fst (read_psi self) = Raise unpack_error
  /\ fst (read_hpa self) = Raise unpack_error
  /\ fst (read_temp_c self) = Raise unpack_error
  /\ fst (read_temp_f self) = Raise unpack_error.
Proof.
  intros Hreach Hfail.
  destruct (reachable_invariant self Hreach) as [Hsize _].
  destruct (read_raw_mismatch self Hsize Hfail) as [self' Hraw].
  destruct (absent_raw_reading self self' Hraw)
    as (Hread & Hpa & Hpsi & Hhpa & Htc & Htf).
  now rewrite Hraw, Hread, Hpa, Hpsi, Hhpa, Htc, Htf.
Qed.

Lemma checksum_mismatch_outcome_witness :
  fst (read_pa (constructed (mkI2C corrupt_pressure_sensor 0 [])
                            _I2C_ADDRESS 1000 true 0))
  = Raise unpack_error.
Proof.
  refine (proj1 (proj2 (proj2
    (checksum_mismatch_outcome
       (constructed (mkI2C corrupt_pressure_sensor 0 []) _I2C_ADDRESS 1000
                    true 0) _ _)))).
  - apply (reach_init (mkI2C corrupt_pressure_sensor 0 []) _I2C_ADDRESS
                      (PyStr "5050") true 0).
    reflexivity.
  - left. reflexivity.
Defined.

(** ** The raw read *)

Lemma int_from_bytes_big_2 (hi lo : byte) :
  int_from_bytes_big [hi; lo] = byte_val hi * 256 + byte_val lo.
Proof. reflexivity. Qed.

Lemma int_from_bytes_big_16bit (b : list byte) :
  List.length b = 2%nat -> 0 <= int_from_bytes_big b <= 65535.
Proof.
  destruct b as [|hi [|lo [|? ?]]]; try discriminate. intros _.
  rewrite int_from_bytes_big_2.
  pose proof (byte_val_range hi). pose proof (byte_val_range lo). lia.
Qed.

Lemma firstn_2_of_2 (b : list byte) :
  List.length b = 2%nat -> firstn 2 b = b.
Proof. intros <-. apply firstn_all. Qed.

(** C10. A driver constructed with checksums disabled never takes the
    checksum-failure branch of the raw read, whatever the bus answers: the
    read returns a pair of integers, the raw temperature being the
    big-endian unsigned 16-bit decode of the 2-byte buffer (so between 0 and
    65535) and the raw pressure the decode of the first answer minus the
    configured offset; nothing is printed. *)
Theorem read_raw_without_checksum (self : D6F_PH) :
  reachable self ->
  en_crc self = false ->
  let pres_bytes := pressure_answer self in
  let temp_bytes := temperature_answer self in
  List.length pres_bytes = 2%nat
  /\ List.length temp_bytes = 2%nat
  /\ 0 <= int_from_bytes_big temp_bytes <= 65535
  /\ exists self',
      read_raw self =
        (Return (Some (int_from_bytes_big pres_bytes - _offset self,
                       int_from_bytes_big temp_bytes)), self')
      /\ _buffer self' = temp_bytes
      /\ trace (_i2c self') =
           trace (_i2c self) ++ pressure_phase self ++ temperature_phase self.
Proof.
  intros Hreach Hcrc pres_bytes temp_bytes.
  destruct (reachable_invariant self Hreach) as [Hsize _].
  assert (Hp : List.length pres_bytes = 2%nat).
  { unfold pres_bytes. rewrite pressure_answer_length.
    unfold buffer_sized in Hsize. now rewrite Hcrc in Hsize. }
  assert (Ht : List.length temp_bytes = 2%nat).
  { unfold temp_bytes. rewrite temperature_answer_length.
    unfold buffer_sized in Hsize. now rewrite Hcrc in Hsize. }
  repeat split; auto using int_from_bytes_big_16bit;
    try (apply int_from_bytes_big_16bit; assumption).
  rewrite (read_raw_cases self Hsize).
  unfold checksum_fails. rewrite Hcrc. cbn [andb].
  fold pres_bytes temp_bytes.
  rewrite (firstn_2_of_2 pres_bytes Hp), (firstn_2_of_2 temp_bytes Ht).
  eexists. split; [reflexivity|]. split; reflexivity.
Qed.

Lemma read_raw_without_checksum_witness :
  exists self',
    read_raw (constructed (mkI2C midpoint_sensor 0 []) _I2C_ADDRESS 1000
                          false 24) =
      (Return (Some (1000, 10214)), self').
Proof.
  destruct (read_raw_without_checksum
              (constructed (mkI2C midpoint_sensor 0 []) _I2C_ADDRESS 1000
                           false 24))
    as (_ & _ & _ & self' & Hraw & _).
  - apply (reach_init (mkI2C midpoint_sensor 0 []) _I2C_ADDRESS
                      (PyInt 1000) false 24).
    reflexivity.
  - reflexivity.
  - exists self'. exact Hraw.
Defined.

Lemma filter_bus_pressure_phase self :
  filter is_bus_transaction (pressure_phase self) = pressure_phase self.
Proof. reflexivity. Qed.

Lemma filter_bus_temperature_phase self :
  filter is_bus_transaction (temperature_phase self) = temperature_phase self.
Proof. reflexivity. Qed.

(** C6, as the code has it.  Every raw read issues, in this order and with
    no other bus transaction: the 5-byte trigger 00 D0 40 18 06, a delay of
    33 ms, the write 00 D0 51 2C and a block read of the buffer (2 bytes
    without checksum, 3 with) from register 0x07; then, unless checksums are
    enabled and the pressure answer fails its checksum, the write
    00 D0 61 2C and a second block read of the same length from register
    0x07.  A failed pressure checksum ends the read after the first block
    read. *)
Theorem read_raw_bus_sequence (self : D6F_PH) :
  reachable self ->
  let n := if en_crc self then 3%nat else 2%nat in
  exists evs,
    trace (_i2c (snd (read_raw self))) = trace (_i2c self) ++ evs
    /\ filter is_bus_transaction evs =
         [Writeto (_addr self) [x00; xd0; x40; x18; x06];
          SleepMs 33;
          Writeto (_addr self) [x00; xd0; x51; x2c];
          ReadfromMemInto (_addr self) 0x07 n]
         ++ (if checksum_fails self (pressure_answer self) then []
             else [Writeto (_addr self) [x00; xd0; x61; x2c];
                   ReadfromMemInto (_addr self) 0x07 n]).
Proof.
  intros Hreach n.
  destruct (reachable_invariant self Hreach) as [Hsize _].
  rewrite (read_raw_cases self Hsize).
  assert (Hp : pressure_phase self =
               [Writeto (_addr self) [x00; xd0; x40; x18; x06];
                SleepMs 33;
                Writeto (_addr self) [x00; xd0; x51; x2c];
                ReadfromMemInto (_addr self) 0x07 n])
    by (unfold pressure_phase; now rewrite Hsize).
  assert (Ht : temperature_phase self =
               [Writeto (_addr self) [x00; xd0; x61; x2c];
                ReadfromMemInto (_addr self) 0x07 n])
    by (unfold temperature_phase; now rewrite Hsize).
  rewrite <- Hp, <- Ht.
  destruct (checksum_fails self (pressure_answer self));
    [|destruct (checksum_fails self (temperature_answer self))];
    cbn [snd advanced _i2c trace]; eexists; (split; [reflexivity|]);
    rewrite ?filter_app, filter_bus_pressure_phase,
      ?filter_bus_temperature_phase; cbn [filter is_bus_transaction];
    rewrite ?app_nil_r; reflexivity.
Qed.

Lemma read_raw_bus_sequence_witness :
  exists evs,
    trace (_i2c (snd (read_raw
      (constructed (mkI2C midpoint_sensor 0 []) _I2C_ADDRESS 1000 false 0))))
    = [Writeto 0x6c [x0b; x00]] ++ evs
    /\ filter is_bus_transaction evs =
         [Writeto 0x6c [x00; xd0; x40; x18; x06];
          SleepMs 33;
          Writeto 0x6c [x00; xd0; x51; x2c];
          ReadfromMemInto 0x6c 0x07 2;
          Writeto 0x6c [x00; xd0; x61; x2c];
          ReadfromMemInto 0x6c 0x07 2].
Proof.
  apply (read_raw_bus_sequence
           (constructed (mkI2C midpoint_sensor 0 []) _I2C_ADDRESS 1000
                        false 0)).
  apply (reach_init (mkI2C midpoint_sensor 0 []) _I2C_ADDRESS
                    (PyInt 1000) false 0).
  reflexivity.
Defined.

(** The claim of C6 read literally fails where a pressure checksum fails:
    with checksums enabled and the answer 00 00 01 to the first block read,
    the raw read stops after four steps and never selects the temperature
    registers. *)
Lemma read_raw_six_steps_counterexample :
  let self := constructed (mkI2C corrupt_pressure_sensor 0 [])
                          _I2C_ADDRESS 1000 true 0 in
  reachable self
  /\ exists evs,
      trace (_i2c (snd (read_raw self))) = trace (_i2c self) ++ evs
      /\ filter is_bus_transaction evs
         = [Writeto 0x6c [x00; xd0; x40; x18; x06];
            SleepMs 33;
            Writeto 0x6c [x00; xd0; x51; x2c];
            ReadfromMemInto 0x6c 0x07 3]
      /\ filter is_bus_transaction evs
         <> [Writeto 0x6c [x00; xd0; x40; x18; x06];
             SleepMs 33;
             Writeto 0x6c [x00; xd0; x51; x2c];
             ReadfromMemInto 0x6c 0x07 3;
             Writeto 0x6c [x00; xd0; x61; x2c];
             ReadfromMemInto 0x6c 0x07 3].
Proof.
  split.
  - apply (reach_init (mkI2C corrupt_pressure_sensor 0 []) _I2C_ADDRESS
                      (PyStr "5050") true 0).
    reflexivity.
  - eexists. split; [reflexivity|]. split; [reflexivity|discriminate].
Qed.

(** ** The calibrated read *)

Lemma read_success self :
  buffer_sized self ->
  checksum_fails self (pressure_answer self) = false ->
  checksum_fails self (temperature_answer self) = false ->
  let raw_pres :=
    int_from_bytes_big (firstn 2 (pressure_answer self)) - _offset self in
  let raw_temp := int_from_bytes_big (firstn 2 (temperature_answer self)) in
  read_raw self =
    (Return (Some (raw_pres, raw_temp)),
     advanced self 2 (pressure_phase self ++ temperature_phase self)
              (temperature_answer self))
  /\ read self =
    (Return (Some (call_pres_func self raw_pres, _temp_celsius raw_temp)),
     advanced self 2 (pressure_phase self ++ temperature_phase self)
              (temperature_answer self)).
Proof.
  intros Hsize Hp Ht raw_pres raw_temp.
  assert (Hraw : read_raw self =
    (Return (Some (raw_pres, raw_temp)),
     advanced self 2 (pressure_phase self ++ temperature_phase self)
              (temperature_answer self)))
    by (now rewrite (read_raw_cases self Hsize), Hp, Ht).
  split; [exact Hraw|]. now rewrite read_unfold, Hraw.
Qed.






(** ** Evaluation in binary64 *)

(** The int division can fail in one way only. *)
Lemma binary64_int_truediv_raises a b e :
  Binary64.int_truediv a b = Raise e -> e = division_overflow.
Proof.
  unfold Binary64.int_truediv.
  destruct (SFdiv 53 1024 (Binary64.exact a) (Binary64.exact (Zpos b)));
    now intros [=].
Qed.

Lemma binary64_temp_celsius_raises raw e :
  Binary64._temp_celsius raw = Raise e -> e = division_overflow.
Proof. apply binary64_int_truediv_raises. Qed.

Lemma binary64_call_pres_func_raises self raw e :
  Binary64.call_pres_func self raw = Raise e -> e = division_overflow.
Proof.
  unfold Binary64.call_pres_func, Binary64._PRESSURE_MODE_P,
    Binary64._PRESSURE_MODE_PN, Binary64.result_bind.
  destruct (_pres_func self); [apply binary64_int_truediv_raises|].
  destruct (Binary64.int_truediv ((raw - 1024) * _pres_range self) 60000)
    eqn:H1; [|intros [= <-]; now apply binary64_int_truediv_raises in H1].
  destruct (Binary64.int_truediv (_pres_range self) 2) eqn:H2;
    [discriminate|intros [= <-]; now apply binary64_int_truediv_raises in H2].
Qed.

Lemma binary64_read_unfold self :
  Binary64.read self =
    match read_raw self with
    | (Return (Some (raw_pres, raw_temp)), self') =>
        match Binary64._temp_celsius raw_temp with
        | Return temp =>
            match Binary64.call_pres_func self' raw_pres with
            | Return pres => (Return (Some (pres, temp)), self')
            | Raise e => (Raise e, self')
            end
        | Raise e => (Raise e, self')
        end
    | (Return None, self') => (Return None, self')
    | (Raise e, self') => (Raise e, self')
    end.
Proof.
  unfold Binary64.read, bind, ret.
  destruct (read_raw self) as [[[[raw_pres raw_temp]|]|e] self'];
    reflexivity.
Qed.

Lemma binary64_call_advanced self k evs buf raw :
  Binary64.call_pres_func (advanced self k evs buf) raw
  = Binary64.call_pres_func self raw.
Proof. reflexivity. Qed.

(** A read whose checksums pass, evaluated in binary64. *)
Lemma binary64_read_success self :
  buffer_sized self ->
  checksum_fails self (pressure_answer self) = false ->
  checksum_fails self (temperature_answer self) = false ->
  let raw_pres :=
    int_from_bytes_big (firstn 2 (pressure_answer self)) - _offset self in
  let raw_temp := int_from_bytes_big (firstn 2 (temperature_answer self)) in
  let self' :=
    advanced self 2 (pressure_phase self ++ temperature_phase self)
             (temperature_answer self) in
  Binary64.read self =
    match Binary64._temp_celsius raw_temp with
    | Return temp =>
        match Binary64.call_pres_func self raw_pres with
        | Return pres => (Return (Some (pres, temp)), self')
        | Raise e => (Raise e, self')
        end
    | Raise e => (Raise e, self')
    end.
Proof.
  intros Hsize Hp Ht. cbv zeta.
  destruct (read_success self Hsize Hp Ht) as [Hraw _].
  now rewrite binary64_read_unfold, Hraw, binary64_call_advanced.
Qed.

Lemma binary64_read_pa_unfold self :
  Binary64.read_pa self =
    match Binary64.read self with
    | (Return (Some (pa, _)), self') => (Return pa, self')
    | (Return None, self') => (Raise unpack_error, self')
    | (Raise e, self') => (Raise e, self')
    end.
Proof.
  unfold Binary64.read_pa, bind, ret, raise.
  destruct (Binary64.read self) as [[[[pa temp]|]|e] self']; reflexivity.
Qed.

Lemma binary64_read_temp_c_unfold self :
  Binary64.read_temp_c self =
    match Binary64.read self with
    | (Return (Some (_, temp)), self') => (Return temp, self')
    | (Return None, self') => (Raise unpack_error, self')
    | (Raise e, self') => (Raise e, self')
    end.
Proof.
  unfold Binary64.read_temp_c, bind, ret, raise.
  destruct (Binary64.read self) as [[[[pa temp]|]|e] self']; reflexivity.
Qed.

(** Every binary64 reading method leaves the driver and the bus as
    [read_raw] does, whether it returns or raises. *)
Lemma binary64_state self :
  snd (Binary64.read self) = snd (read_raw self)
  /\ snd (Binary64.read_pa self) = snd (read_raw self)
  /\ snd (Binary64.read_psi self) = snd (read_raw self)
  /\ snd (Binary64.read_hpa self) = snd (read_raw self)
  /\ snd (Binary64.read_temp_c self) = snd (read_raw self)
  /\ snd (Binary64.read_temp_f self) = snd (read_raw self).
Proof.
  unfold Binary64.read_psi, Binary64.read_hpa, Binary64.read_temp_f, bind, ret.
  rewrite binary64_read_pa_unfold, binary64_read_temp_c_unfold,
    binary64_read_unfold.
  destruct (read_raw self) as [[[[raw_pres raw_temp]|]|e] self'];
    try (repeat split; reflexivity).
  destruct (Binary64._temp_celsius raw_temp);
    [|repeat split; reflexivity].
  destruct (Binary64.call_pres_func self' raw_pres); repeat split; reflexivity.
Qed.

(** ** Range of the transfer functions *)






(** ** The raw offset *)

(** Whether construction succeeds, and with which full scale, depends on
    [pressure_range] alone. *)
Lemma init_constructed i2c_obj address pressure_range en offset self :
  __init__ i2c_obj address pressure_range en offset = Return self ->
  exists full_scale,
    is_full_scale full_scale = true
    /\ forall i2c' address' en' offset',
        __init__ i2c' address' pressure_range en' offset' =
          Return (constructed i2c' address' full_scale en' offset').
Proof.
  destruct pressure_range as [s|z|b|q|].
  - rewrite init_str.
    destruct (dict_get _PRESSURE_RANGE s) as [v|] eqn:Hget; [|discriminate].
    intros _. exists v. split.
    + revert Hget. unfold _PRESSURE_RANGE. cbn [dict_get].
      repeat match goal with
             | |- context [String.eqb ?a ?b] => destruct (String.eqb a b)
             end; now intros [= <-].
    + intros. now rewrite init_str, Hget.
  - rewrite init_int.
    destruct (is_full_scale z) eqn:Hfs; [|discriminate].
    intros _. exists z. split; [exact Hfs|].
    intros. now rewrite init_int, Hfs.
  - destruct b; discriminate.
  - discriminate.
  - discriminate.
Qed.

Lemma constructed_reachable i2c_obj address full_scale en offset :
  is_full_scale full_scale = true ->
  reachable (constructed i2c_obj address full_scale en offset).
Proof.
  intros Hfs.
  apply (reach_init i2c_obj address (PyInt full_scale) en offset).
  now rewrite init_int, Hfs.
Qed.





(** ** Convenience conversions *)

Lemma read_pa_unfold self :
  read_pa self =
    match read self with
    | (Return (Some (pa, _)), self') => (Return pa, self')
    | (Return None, self') => (Raise unpack_error, self')
    | (Raise e, self') => (Raise e, self')
    end.
Proof.
  unfold read_pa, bind, ret, raise.
  destruct (read self) as [[[[pa temp]|]|e] self']; reflexivity.
Qed.

Lemma read_temp_c_unfold self :
  read_temp_c self =
    match read self with
    | (Return (Some (_, temp)), self') => (Return temp, self')
    | (Return None, self') => (Raise unpack_error, self')
    | (Raise e, self') => (Raise e, self')
    end.
Proof.
  unfold read_temp_c, bind, ret, raise.
  destruct (read self) as [[[[pa temp]|]|e] self']; reflexivity.
Qed.

(** Every reading method leaves the driver and the bus as [read_raw]
    does. *)
Lemma conversions_state self :
  snd (read self) = snd (read_raw self)
  /\ snd (read_pa self) = snd (read_raw self)
  /\ snd (read_psi self) = snd (read_raw self)
  /\ snd (read_hpa self) = snd (read_raw self)
  /\ snd (read_temp_c self) = snd (read_raw self)
  /\ snd (read_temp_f self) = snd (read_raw self).
Proof.
  unfold read_psi, read_hpa, read_temp_f, bind, ret.
  rewrite read_pa_unfold, read_temp_c_unfold, read_unfold.
  destruct (read_raw self) as [[[[raw_pres raw_temp]|]|e] self'];
    repeat split; reflexivity.
Qed.

Lemma reachable_after_reading self :
  reachable self ->
  reachable (snd (read self))
  /\ reachable (snd (read_pa self))
  /\ reachable (snd (read_psi self))
  /\ reachable (snd (read_hpa self))
  /\ reachable (snd (read_temp_c self))
  /\ reachable (snd (read_temp_f self)).
Proof.
  intros Hreach.
  destruct (conversions_state self) as (-> & -> & -> & -> & -> & ->).
  repeat split; now apply reach_read_raw.
Qed.

(** Two calls of [read_hpa] in a row measure twice: the first returns
    1 hPa from the first sample, the second 0 hPa from the second sample,
    and four block reads have been consumed. *)
Example read_hpa_measures_each_time :
  exists hpa1 hpa2 self1 self2,
    read_hpa (constructed (mkI2C two_sample_sensor 0 []) _I2C_ADDRESS 1000
                          false 0) = (Return hpa1, self1)
    /\ read_hpa self1 = (Return hpa2, self2)
    /\ (hpa1 == 1)%Q /\ (hpa2 == 0)%Q
    /\ nreads (_i2c self2) = 4%nat.
Proof.
  do 4 eexists. split; [lazy; reflexivity|].
  split; [lazy; reflexivity|]. repeat split.
Qed.

(** C9.  Each convenience conversion executes the whole measurement
    sequence on every call, nothing being kept from one call to the next:
    the events it appends to the timeline are exactly those of a raw read
    (trigger, 33 ms delay, selection and block read of the pressure
    registers, then selection and block read of the temperature registers,
    a failed checksum ending the sequence with the diagnostic print), it
    leaves the driver where a raw read leaves it, and that state is again
    one from which the next call measures.  When the checksums pass its
    value is computed from the answers of this very call: with pa and temp
    the binary64 pressure and temperature of these answers,
    read_psi = pa / 6894.75729, read_hpa = pa / 100 and
    read_temp_f = temp * 1.8 + 32.  In binary64 these conversions give
    exactly 1.0 for 6894.75729 Pa, 1.0 for 100 Pa, 32.0 for 0 degrees and
    212.0 for 100 degrees Celsius; on a '5050' driver whose sensor delivers
    37024 and 13953 counts and then 31024 and 10214 counts, read_hpa returns
    1.0, read_temp_f returns 212.0, and read_temp_f called after read_hpa
    returns 32.0 from the second sample. *)
Theorem convenience_conversions :
  (forall self : D6F_PH,
      reachable self ->
      let n := if en_crc self then 3%nat else 2%nat in
      let b1 := pressure_answer self in
      let b2 := temperature_answer self in
      let sequence :=
        [Writeto (_addr self) [x00; xd0; x40; x18; x06];
         SleepMs 33;
         Writeto (_addr self) [x00; xd0; x51; x2c];
         ReadfromMemInto (_addr self) 0x07 n]
        ++ (if checksum_fails self b1
            then [ConsolePrint b1 (crc8_default (firstn 2 b1))]
            else [Writeto (_addr self) [x00; xd0; x61; x2c];
                  ReadfromMemInto (_addr self) 0x07 n]
                 ++ (if checksum_fails self b2
                     then [ConsolePrint b2 (crc8_default (firstn 2 b2))]
                     else [])) in
      (trace (_i2c (snd (Binary64.read_psi self)))
       = trace (_i2c self) ++ sequence
       /\ trace (_i2c (snd (Binary64.read_hpa self)))
          = trace (_i2c self) ++ sequence
       /\ trace (_i2c (snd (Binary64.read_temp_f self)))
          = trace (_i2c self) ++ sequence)
      /\ (snd (Binary64.read_psi self) = snd (read_raw self)
          /\ snd (Binary64.read_hpa self) = snd (read_raw self)
          /\ snd (Binary64.read_temp_f self) = snd (read_raw self)
          /\ reachable (snd (read_raw self)))
      /\ (checksum_fails self b1 = false ->
          checksum_fails self b2 = false ->
          forall pa temp,
            Binary64.call_pres_func self
              (int_from_bytes_big (firstn 2 b1) - _offset self) = Return pa ->
            Binary64._temp_celsius (int_from_bytes_big (firstn 2 b2))
              = Return temp ->
            fst (Binary64.read_psi self)
              = Return (Binary64.fdiv pa (Binary64.literal 689475729 100000))
            /\ fst (Binary64.read_hpa self)
               = Return (Binary64.fdiv pa (Binary64.of_int 100))
            /\ fst (Binary64.read_temp_f self)
               = Return (Binary64.fadd
                           (Binary64.fmul temp (Binary64.literal 18 10))
                           (Binary64.of_int 32))))
  /\ (Binary64.psi_of_pa (Binary64.literal 689475729 100000)
      = Binary64.of_int 1
      /\ Binary64.hpa_of_pa (Binary64.of_int 100) = Binary64.of_int 1
      /\ Binary64.fahrenheit_of_celsius (S754_zero false)
         = Binary64.of_int 32
      /\ Binary64.fahrenheit_of_celsius (Binary64.of_int 100)
         = Binary64.of_int 212)
  /\ (let self := constructed (mkI2C two_sample_sensor 0 []) _I2C_ADDRESS
                              1000 false 0 in
      fst (Binary64.read self)
        = Return (Some (Binary64.of_int 100, Binary64.of_int 100))
      /\ fst (Binary64.read_hpa self) = Return (Binary64.of_int 1)
      /\ fst (Binary64.read_temp_f self) = Return (Binary64.of_int 212)
      /\ fst (Binary64.read_temp_f (snd (Binary64.read_hpa self)))
         = Return (Binary64.of_int 32)).
Proof.
  split; [|split].
  - intros self Hreach n b1 b2 sequence.
    destruct (reachable_invariant self Hreach) as [Hsize _].
    destruct (binary64_state self) as (_ & _ & Hpsi & Hhpa & _ & Htf).
    assert (Htrace : trace (_i2c (snd (read_raw self)))
                     = trace (_i2c self) ++ sequence).
    { unfold sequence, n, b1, b2.
      replace (if en_crc self then 3%nat else 2%nat)
        with (List.length (_buffer self)) by exact Hsize.
      change [Writeto (_addr self) [x00; xd0; x40; x18; x06];
              SleepMs 33;
              Writeto (_addr self) [x00; xd0; x51; x2c];
              ReadfromMemInto (_addr self) 0x07 (List.length (_buffer self))]
        with (pressure_phase self).
      change [Writeto (_addr self) [x00; xd0; x61; x2c];
              ReadfromMemInto (_addr self) 0x07 (List.length (_buffer self))]
        with (temperature_phase self).
      rewrite (read_raw_cases self Hsize).
      destruct (checksum_fails self (pressure_answer self));
        [|destruct (checksum_fails self (temperature_answer self))];
        cbn [snd advanced _i2c trace]; rewrite ?app_nil_r; reflexivity. }
    split; [now rewrite Hpsi, Hhpa, Htf|].
    split; [repeat split; auto using reach_read_raw|].
    intros Hp Ht pa temp Hpa Htemp.
    unfold Binary64.read_psi, Binary64.read_hpa, Binary64.read_temp_f,
      bind, ret.
    rewrite binary64_read_pa_unfold, binary64_read_temp_c_unfold,
      (binary64_read_success self Hsize Hp Ht).
    fold b1 b2. rewrite Hpa, Htemp. repeat split.
  - repeat split.
  - cbv zeta.
    pose proof (binary64_read_success
                  (constructed (mkI2C two_sample_sensor 0 []) _I2C_ADDRESS
                               1000 false 0) eq_refl eq_refl eq_refl)
      as Hread1.
    assert (H1 : Binary64.read
                   (constructed (mkI2C two_sample_sensor 0 []) _I2C_ADDRESS
                                1000 false 0)
                 = (Return (Some (Binary64.of_int 100, Binary64.of_int 100)),
                    advanced
                      (constructed (mkI2C two_sample_sensor 0 [])
                                   _I2C_ADDRESS 1000 false 0) 2
                      (pressure_phase
                         (constructed (mkI2C two_sample_sensor 0 [])
                                      _I2C_ADDRESS 1000 false 0)
                       ++ temperature_phase
                            (constructed (mkI2C two_sample_sensor 0 [])
                                         _I2C_ADDRESS 1000 false 0))
                      (temperature_answer
                         (constructed (mkI2C two_sample_sensor 0 [])
                                      _I2C_ADDRESS 1000 false 0))))
      by exact Hread1.
    unfold Binary64.read_hpa, Binary64.read_temp_f, bind, ret.
    rewrite binary64_read_pa_unfold, binary64_read_temp_c_unfold, H1.
    cbn [fst snd].
    split; [reflexivity|]. split; [reflexivity|]. split; [reflexivity|].
    rewrite binary64_read_temp_c_unfold.
    match goal with
    | |- context [Binary64.read ?s] =>
        rewrite (binary64_read_success s eq_refl eq_refl eq_refl)
    end.
    reflexivity.
Qed.

Lemma convenience_conversions_witness :
  fst (Binary64.read_hpa
         (constructed (mkI2C two_sample_sensor 0 []) _I2C_ADDRESS 1000
                      false 0))
  = Return (Binary64.fdiv (Binary64.of_int 100) (Binary64.of_int 100)).
Proof.
  refine (proj1 (proj2
    (proj2 (proj2 (proj1 convenience_conversions
       (constructed (mkI2C two_sample_sensor 0 []) _I2C_ADDRESS 1000 false 0)
       (reach_init (mkI2C two_sample_sensor 0 []) _I2C_ADDRESS (PyStr "5050")
                   false 0 _ eq_refl)))
       eq_refl eq_refl (Binary64.of_int 100) (Binary64.of_int 100)
       eq_refl eq_refl))).
Defined.

(** * Further properties of the driver *)

(** ** The checksum as a function of the message *)

(** X1. The checksum can be computed piecewise: the checksum of a
    concatenation is the checksum of the second part started from the
    checksum of the first.  The empty message returns the initial value
    untouched (not masked), and an initial value within 8 bits gives a result
    within 8 bits for every message, the empty one included. *)
Theorem crc8_app (xs ys : list byte) (poly init : Z) :
  crc8 (xs ++ ys) poly init = crc8 ys poly (crc8 xs poly init)
  /\ crc8 [] poly init = init
  /\ (0 <= init <= 255 -> 0 <= crc8 xs poly init <= 255).
Proof.
  unfold crc8. rewrite !Z.lxor_0_r, fold_left_app.
  split; [reflexivity|]. split; [reflexivity|].
  rewrite crc8_fold_spec. apply crc8_spec_range.
Qed.

Lemma crc8_app_witness :
  crc8 ([x04] ++ [x00]) 0x131 0 = crc8 [x00] 0x131 (crc8 [x04] 0x131 0)
  /\ 0 <= crc8 [x04] 0x131 0 <= 255.
Proof.
  destruct (crc8_app [x04] [x00] 0x131 0) as (Happ & _ & Hrange).
  split; [exact Happ|]. apply Hrange. lia.
Defined.

(** X2. On a non-empty message only the low 8 bits of the polynomial and of
    the initial value matter: parameters that agree modulo 256 give the same
    checksum, so the default 0x131 and the polynomial byte 0x31 are
    interchangeable. *)
Theorem crc8_low_bits (b : byte) (rest : list byte) (poly poly' init init' : Z) :
  poly mod 256 = poly' mod 256 ->
  init mod 256 = init' mod 256 ->
  crc8 (b :: rest) poly init = crc8 (b :: rest) poly' init'.
Proof.
  intros Hpoly Hinit. unfold crc8.
  rewrite !Z.lxor_0_r, !crc8_fold_spec, !crc8_spec_reg8_cons.
  now rewrite Hpoly, Hinit.
Qed.

Lemma crc8_low_bits_witness :
  crc8 [x27; xe6] 0x131 0 = crc8 [x27; xe6] 0x31 0x100.
Proof. apply crc8_low_bits; reflexivity. Defined.

Lemma reg8_shift_lxor (poly8 a b : Z) :
  reg8_shift poly8 (Z.lxor a b)
  = Z.lxor (reg8_shift poly8 a) (reg8_shift poly8 b).
Proof.
  unfold reg8_shift, spec_shift.
  rewrite Z.lxor_spec, <- lxor_mod_256, Z.shiftl_lxor.
  destruct (Z.testbit a 7), (Z.testbit b 7); cbn [xorb]; f_equal.
  - rewrite !Z.lxor_assoc. f_equal.
    rewrite (Z.lxor_comm poly8), Z.lxor_assoc, Z.lxor_nilpotent.
    now rewrite Z.lxor_0_r.
  - rewrite !Z.lxor_assoc. f_equal. apply Z.lxor_comm.
  - now rewrite Z.lxor_assoc.
Qed.

Lemma default_rounds_lxor (a b : Z) :
  default_rounds (Z.lxor a b)
  = Z.lxor (default_rounds a) (default_rounds b).
Proof.
  unfold default_rounds. generalize 8%nat. intros n.
  induction n as [|n IH]; [reflexivity|].
  now rewrite !Nat.iter_succ, IH, reg8_shift_lxor.
Qed.

Lemma in_register_values (r : Z) : 0 <= r < 256 -> In r register_values.
Proof.
  intros Hr. unfold register_values. rewrite <- (Z2Nat.id r) by lia.
  apply in_map, in_seq. lia.
Qed.

Lemma default_rounds_kernel_table :
  forallb (fun r => negb (default_rounds r =? 0) || (r =? 0)) register_values
  = true.
Proof. vm_compute. reflexivity. Qed.

Lemma default_rounds_kernel (r : Z) :
  0 <= r < 256 -> default_rounds r = 0 -> r = 0.
Proof.
  intros Hr Hzero. pose proof default_rounds_kernel_table as Htable.
  rewrite forallb_forall in Htable.
  specialize (Htable r (in_register_values r Hr)).
  rewrite Hzero in Htable. cbn in Htable. now apply Z.eqb_eq.
Qed.

Lemma default_rounds_injective (a b : Z) :
  0 <= a < 256 -> 0 <= b < 256 ->
  default_rounds a = default_rounds b -> a = b.
Proof.
  intros Ha Hb Heq. apply Z.lxor_eq.
  apply default_rounds_kernel; [now apply lxor_range_256|].
  now rewrite default_rounds_lxor, Heq, Z.lxor_nilpotent.
Qed.

Lemma default_rounds_range (r : Z) :
  0 <= r < 256 -> 0 <= default_rounds r < 256.
Proof. apply reg8_rounds_range. Qed.

Lemma byte_val_injective (a b : byte) : byte_val a = byte_val b -> a = b.
Proof.
  unfold byte_val. intros H. apply N2Z.inj in H.
  pose proof (Byte.of_to_N a) as Ha. rewrite H, Byte.of_to_N in Ha.
  now injection Ha.
Qed.

Lemma crc8_default_pair (a b : byte) :
  crc8_default [a; b]
  = default_rounds (Z.lxor (default_rounds (byte_val a)) (byte_val b)).
Proof.
  unfold crc8_default, crc8.
  rewrite Z.lxor_0_r, crc8_fold_spec, crc8_spec_reg8_cons.
  change (0x131 mod 256) with 0x31. change (0x00 mod 256) with 0.
  cbn [crc8_reg8]. rewrite Z.lxor_0_l. unfold default_rounds. reflexivity.
Qed.

Lemma lxor_cancel_l (x a b : Z) : Z.lxor x a = Z.lxor x b -> a = b.
Proof.
  intros H.
  assert (Hinv : forall y, Z.lxor x (Z.lxor x y) = y)
    by (intros y; now rewrite <- Z.lxor_assoc, Z.lxor_nilpotent, Z.lxor_0_l).
  now rewrite <- (Hinv a), H, Hinv.
Qed.

Lemma crc8_default_second_byte (a b b' : byte) :
  crc8_default [a; b] = crc8_default [a; b'] -> b = b'.
Proof.
  rewrite !crc8_default_pair. intros H.
  pose proof (byte_val_range a). pose proof (byte_val_range b).
  pose proof (byte_val_range b').
  pose proof (default_rounds_range (byte_val a) ltac:(lia)).
  apply default_rounds_injective in H; try (apply lxor_range_256; lia).
  now apply byte_val_injective, (lxor_cancel_l (default_rounds (byte_val a))).
Qed.

Lemma crc8_default_first_byte (a a' b : byte) :
  crc8_default [a; b] = crc8_default [a'; b] -> a = a'.
Proof.
  rewrite !crc8_default_pair. intros H.
  pose proof (byte_val_range a). pose proof (byte_val_range a').
  pose proof (byte_val_range b).
  pose proof (default_rounds_range (byte_val a) ltac:(lia)).
  pose proof (default_rounds_range (byte_val a') ltac:(lia)).
  apply default_rounds_injective in H; try (apply lxor_range_256; lia).
  rewrite (Z.lxor_comm _ (byte_val b)), (Z.lxor_comm _ (byte_val b)) in H.
  apply lxor_cancel_l in H.
  apply byte_val_injective, default_rounds_injective; assumption.
Qed.

(** X3. The default checksum of a 2-byte payload tells apart any two
    payloads that differ in exactly one of their bytes: whatever is changed
    inside one byte (a single bit or all eight), the checksum changes. *)
Theorem crc8_detects_single_byte (a b a' b' : byte) :
  (a = a' /\ b <> b') \/ (a <> a' /\ b = b') ->
  crc8_default [a; b] <> crc8_default [a'; b'].
Proof.
  intros [[<- Hb]|[Ha <-]] Heq.
  - now apply Hb, (crc8_default_second_byte a).
  - now apply Ha, (crc8_default_first_byte a a' b).
Qed.

Lemma crc8_detects_single_byte_witness :
  crc8_default [x04; x00] <> crc8_default [x04; x01].
Proof.
  apply crc8_detects_single_byte. left. split; [reflexivity|discriminate].
Defined.

(** ** Frames with a checksum *)

Lemma checksum_fails_frame self (a b c : byte) :
  checksum_fails self [a; b; c]
  = en_crc self && negb (crc8_default [a; b] =? byte_val c).
Proof. reflexivity. Qed.

(** X4. With checksums enabled, a frame that reaches the driver with one of
    its three bytes altered (either payload byte or the checksum byte) is
    always rejected: if the sensor sent a, b and the checksum of a, b, and
    the pressure or the temperature block read delivers that frame with
    exactly one byte changed, the raw read and the calibrated read return
    [None]. *)
Theorem corrupted_frame_rejected (self : D6F_PH) (a b c a' b' c' : byte) :
  reachable self ->
  en_crc self = true ->
  byte_val c = crc8_default [a; b] ->
  (a <> a' /\ b = b' /\ c = c') \/ (a = a' /\ b <> b' /\ c = c')
  \/ (a = a' /\ b = b' /\ c <> c') ->
  pressure_answer self = [a'; b'; c']
  \/ temperature_answer self = [a'; b'; c'] ->
  fst (read_raw self) = Return None /\ fst (read self) = Return None.
Proof.
  intros Hreach Hen Hsent Hchange Hrecv.
  destruct (reachable_invariant self Hreach) as [Hsize _].
  assert (Hbad : checksum_fails self [a'; b'; c'] = true).
  { rewrite checksum_fails_frame, Hen. cbn [andb].
    apply negb_true_iff, Z.eqb_neq.
    destruct Hchange as [(Ha & <- & <-)|[(<- & Hb & <-)|(<- & <- & Hc)]].
    - rewrite Hsent. intros Heq.
      now apply Ha, eq_sym, (crc8_default_first_byte a' a b).
    - rewrite Hsent. intros Heq.
      now apply Hb, eq_sym, (crc8_default_second_byte a b' b).
    - rewrite <- Hsent. intros Heq. now apply Hc, byte_val_injective. }
  assert (Hfail : checksum_fails self (pressure_answer self) = true
                  \/ checksum_fails self (temperature_answer self) = true)
    by (destruct Hrecv as [-> | ->]; [left|right]; exact Hbad).
  destruct (read_raw_mismatch self Hsize Hfail) as [self' Hraw].
  destruct (absent_raw_reading self self' Hraw) as [Hread _].
  now rewrite Hraw, Hread.
Qed.

Lemma corrupted_frame_rejected_witness :
  fst (read_raw (constructed (mkI2C corrupt_pressure_sensor 0 [])
                             _I2C_ADDRESS 1000 true 0)) = Return None.
Proof.
  refine (proj1 (corrupted_frame_rejected
            (constructed (mkI2C corrupt_pressure_sensor 0 []) _I2C_ADDRESS
                         1000 true 0)
            x00 x00 x00 x00 x00 x01 _ eq_refl eq_refl _ _)).
  - apply (reach_init (mkI2C corrupt_pressure_sensor 0 []) _I2C_ADDRESS
                      (PyStr "5050") true 0).
    reflexivity.
  - right. right. repeat split. discriminate.
  - left. reflexivity.
Defined.

(** X5. With checksums enabled, frames that carry the checksum of their own
    payload are accepted: when both block reads deliver a payload followed by
    its [crc8], the raw read returns the big-endian value of the first
    payload minus the offset and the big-endian value of the second. *)
Theorem valid_frames_accepted (self : D6F_PH) (a b c d e f : byte) :
  reachable self ->
  en_crc self = true ->
  pressure_answer self = [a; b; c] ->
  temperature_answer self = [d; e; f] ->
  byte_val c = crc8_default [a; b] ->
  byte_val f = crc8_default [d; e] ->
  exists self',
    read_raw self =
      (Return (Some (byte_val a * 256 + byte_val b - _offset self,
                     byte_val d * 256 + byte_val e)), self')
    /\ _buffer self' = [d; e; f].
Proof.
  intros Hreach Hen Hp Ht Hc Hf.
  destruct (reachable_invariant self Hreach) as [Hsize _].
  assert (Hpok : checksum_fails self (pressure_answer self) = false)
    by (rewrite Hp, checksum_fails_frame, Hc, Z.eqb_refl;
        apply andb_false_r).
  assert (Htok : checksum_fails self (temperature_answer self) = false)
    by (rewrite Ht, checksum_fails_frame, Hf, Z.eqb_refl;
        apply andb_false_r).
  destruct (read_success self Hsize Hpok Htok) as [Hraw _].
  rewrite Hp, Ht in Hraw. cbn [firstn] in Hraw.
  rewrite !int_from_bytes_big_2 in Hraw.
  eexists. split; [exact Hraw|reflexivity].
Qed.

Lemma valid_frames_accepted_witness :
  exists self',
    read_raw (constructed (mkI2C checked_midpoint_sensor 0 []) _I2C_ADDRESS
                          250 true 0)
    = (Return (Some (byte_val x04 * 256 + byte_val x00 - 0,
                     byte_val x27 * 256 + byte_val xe6)), self')
    /\ _buffer self' = [x27; xe6; x15].
Proof.
  apply (valid_frames_accepted
           (constructed (mkI2C checked_midpoint_sensor 0 []) _I2C_ADDRESS 250
                        true 0)
           x04 x00 x83 x27 xe6 x15).
  - apply (reach_init (mkI2C checked_midpoint_sensor 0 []) _I2C_ADDRESS
                      (PyInt 250) true 0).
    reflexivity.
  - reflexivity.
  - reflexivity.
  - reflexivity.
  - reflexivity.
  - reflexivity.
Defined.

(** ** Outcomes and effects of a raw read *)

Lemma checksum_fails_true self buf :
  checksum_fails self buf = true ->
  en_crc self = true
  /\ crc8_default (firstn 2 buf) <> byte_val (nth 2 buf x00).
Proof.
  unfold checksum_fails. intros H. apply andb_true_iff in H as [Hen Hne].
  split; [exact Hen|]. now apply Z.eqb_neq, negb_true_iff.
Qed.

(** X6. The diagnostic print goes with the absent outcome and only with
    it.  If a raw read returns a pair of counts, everything it logged is a
    bus transaction or the delay: nothing was printed.  If it returns
    [None], checksums are enabled, the last thing it did was print the
    rejected buffer, which is still in the driver's buffer, together with
    the checksum computed over its first two bytes, that checksum differs
    from the buffer's third byte, and everything logged before the print is
    a bus transaction or the delay. *)
Theorem read_raw_diagnostic (self : D6F_PH) :
  reachable self ->
  let self' := snd (read_raw self) in
  exists evs,
    trace (_i2c self') = trace (_i2c self) ++ evs
    /\ (forall raw_pres raw_temp,
          fst (read_raw self) = Return (Some (raw_pres, raw_temp)) ->
          forallb is_bus_transaction evs = true)
    /\ (fst (read_raw self) = Return None ->
        en_crc self = true
        /\ crc8_default (firstn 2 (_buffer self'))
           <> byte_val (nth 2 (_buffer self') x00)
        /\ exists bus_evs,
            evs = bus_evs
                  ++ [ConsolePrint (_buffer self')
                        (crc8_default (firstn 2 (_buffer self')))]
            /\ forallb is_bus_transaction bus_evs = true).
Proof.
  intros Hreach.
  destruct (reachable_invariant self Hreach) as [Hsize _].
  cbv zeta. rewrite (read_raw_cases self Hsize).
  destruct (checksum_fails self (pressure_answer self)) eqn:Hp;
    [|destruct (checksum_fails self (temperature_answer self)) eqn:Ht];
    cbn [fst snd advanced _i2c trace _buffer]; eexists;
    (split; [reflexivity|]).
  - split; [discriminate|]. intros _.
    destruct (checksum_fails_true _ _ Hp) as [Hen Hne].
    repeat split; try assumption.
    exists (pressure_phase self). split; reflexivity.
  - split; [discriminate|]. intros _.
    destruct (checksum_fails_true _ _ Ht) as [Hen Hne].
    repeat split; try assumption.
    exists (pressure_phase self ++ temperature_phase self).
    split; [now rewrite app_assoc|reflexivity].
  - split; [reflexivity|discriminate].
Qed.

Lemma read_raw_diagnostic_witness :
  let self := constructed (mkI2C corrupt_pressure_sensor 0 []) _I2C_ADDRESS
                          1000 true 0 in
  exists evs bus_evs,
    trace (_i2c (snd (read_raw self))) = trace (_i2c self) ++ evs
    /\ evs = bus_evs
             ++ [ConsolePrint (_buffer (snd (read_raw self)))
                   (crc8_default (firstn 2 (_buffer (snd (read_raw self)))))]
    /\ forallb is_bus_transaction bus_evs = true.
Proof.
  intros self.
  destruct (read_raw_diagnostic self) as (evs & Htrace & _ & Hnone).
  - apply (reach_init (mkI2C corrupt_pressure_sensor 0 []) _I2C_ADDRESS
                      (PyInt 1000) true 0).
    reflexivity.
  - destruct (read_raw_mismatch self eq_refl (or_introl eq_refl))
      as [self' Hraw].
    assert (Hfst : fst (read_raw self) = Return None) by now rewrite Hraw.
    destruct (Hnone Hfst) as (_ & _ & bus_evs & Hevs & Hbus).
    exists evs, bus_evs. split; [exact Htrace|]. split; [exact Hevs|exact Hbus].
Defined.

(** X7. No reading method changes the configuration: after a raw read the
    address, the full scale, the selected transfer function, the offset and
    the checksum mode are what they were, the buffer has kept its size, and
    the bus has served one block read if the pressure checksum failed and
    two otherwise. *)
Theorem reading_keeps_configuration (self : D6F_PH) :
  reachable self ->
  let self' := snd (read_raw self) in
  _addr self' = _addr self
  /\ _pres_range self' = _pres_range self
  /\ _pres_func self' = _pres_func self
  /\ _offset self' = _offset self
  /\ en_crc self' = en_crc self
  /\ List.length (_buffer self') = List.length (_buffer self)
  /\ sensor (_i2c self') = sensor (_i2c self)
  /\ nreads (_i2c self') =
       ((if checksum_fails self (pressure_answer self) then 1 else 2)
        + nreads (_i2c self))%nat.
Proof.
  intros Hreach.
  destruct (reachable_invariant self Hreach) as [Hsize _].
  cbv zeta. rewrite (read_raw_cases self Hsize).
  destruct (checksum_fails self (pressure_answer self));
    [|destruct (checksum_fails self (temperature_answer self))];
    cbn [snd advanced _addr _pres_range _pres_func _offset en_crc _buffer
         _i2c sensor nreads];
    repeat split;
    auto using pressure_answer_length, temperature_answer_length.
Qed.

Lemma reading_keeps_configuration_witness :
  _offset (snd (read_raw (constructed (mkI2C midpoint_sensor 0 [])
                                      _I2C_ADDRESS 1000 false 24))) = 24.
Proof.
  refine (proj1 (proj2 (proj2 (proj2
    (reading_keeps_configuration
       (constructed (mkI2C midpoint_sensor 0 []) _I2C_ADDRESS 1000 false 24)
       _))))).
  apply (reach_init (mkI2C midpoint_sensor 0 []) _I2C_ADDRESS (PyInt 1000)
                    false 24).
  reflexivity.
Defined.

Lemma int_from_bytes_big_firstn_2 (b : list byte) :
  0 <= int_from_bytes_big (firstn 2 b) <= 65535.
Proof.
  destruct b as [|hi [|lo rest]]; cbn [firstn].
  - cbn. lia.
  - pose proof (byte_val_range hi). cbn. lia.
  - rewrite int_from_bytes_big_2.
    pose proof (byte_val_range hi). pose proof (byte_val_range lo). lia.
Qed.

(** X8. Whatever the bus delivers and whatever the checksum mode, the counts
    of a raw read that succeeds are bounded: the raw temperature lies in
    0..65535 and the raw pressure, which has the offset subtracted, in
    -offset..65535-offset. *)
Theorem read_raw_bounds (self self' : D6F_PH) (raw_pres raw_temp : Z) :
  reachable self ->
  read_raw self = (Return (Some (raw_pres, raw_temp)), self') ->
  0 <= raw_temp <= 65535
  /\ - _offset self <= raw_pres <= 65535 - _offset self.
Proof.
  intros Hreach Hraw.
  destruct (reachable_invariant self Hreach) as [Hsize _].
  rewrite (read_raw_cases self Hsize) in Hraw.
  destruct (checksum_fails self (pressure_answer self)); [discriminate|].
  destruct (checksum_fails self (temperature_answer self)); [discriminate|].
  assert (Hp : raw_pres = int_from_bytes_big (firstn 2 (pressure_answer self))
                          - _offset self) by congruence.
  assert (Ht : raw_temp =
               int_from_bytes_big (firstn 2 (temperature_answer self)))
    by congruence.
  pose proof (int_from_bytes_big_firstn_2 (pressure_answer self)).
  pose proof (int_from_bytes_big_firstn_2 (temperature_answer self)).
  lia.
Qed.

Lemma read_raw_bounds_witness :
  0 <= 10214 <= 65535 /\ - 24 <= 1024 - 24 <= 65535 - 24.
Proof.
  destruct (read_success
              (constructed (mkI2C midpoint_sensor 0 []) _I2C_ADDRESS 1000
                           false 24) eq_refl eq_refl eq_refl) as [Hraw _].
  apply (read_raw_bounds
           (constructed (mkI2C midpoint_sensor 0 []) _I2C_ADDRESS 1000
                        false 24) _ _ _
           (reach_init (mkI2C midpoint_sensor 0 []) _I2C_ADDRESS (PyInt 1000)
                       false 24 _ eq_refl)
           Hraw).
Defined.

(** ** Reading without checksums *)

(** X9. With checksums disabled the failure of C1 cannot happen: the
    calibrated read never returns [None], and none of the five convenience
    methods raises the [TypeError] of unpacking [None]; each of them leaves
    the driver where the raw read leaves it. *)
Theorem no_checksum_no_unpack_error (self : D6F_PH) :
  reachable self ->
  en_crc self = false ->
  fst (Binary64.read self) <> Return None
  /\ fst (Binary64.read_pa self) <> Raise unpack_error
  /\ fst (Binary64.read_temp_c self) <> Raise unpack_error
  /\ fst (Binary64.read_psi self) <> Raise unpack_error
  /\ fst (Binary64.read_hpa self) <> Raise unpack_error
  /\ fst (Binary64.read_temp_f self) <> Raise unpack_error
  /\ snd (Binary64.read self) = snd (read_raw self).
Proof.
  intros Hreach Hen.
  destruct (reachable_invariant self Hreach) as [Hsize _].
  assert (Hok : forall buf, checksum_fails self buf = false)
    by (intros buf; unfold checksum_fails; now rewrite Hen).
  destruct (binary64_state self) as (Hstate & _).
  split; [|split; [|split; [|split; [|split; [|split; [|exact Hstate]]]]]];
    unfold Binary64.read_psi, Binary64.read_hpa, Binary64.read_temp_f, bind,
      ret;
    rewrite ?binary64_read_pa_unfold, ?binary64_read_temp_c_unfold,
      (binary64_read_success self Hsize (Hok _) (Hok _));
    destruct (Binary64._temp_celsius
                (int_from_bytes_big (firstn 2 (temperature_answer self))))
      as [temp|e] eqn:Htemp;
    try (apply binary64_temp_celsius_raises in Htemp; subst e);
    try destruct (Binary64.call_pres_func self
                    (int_from_bytes_big (firstn 2 (pressure_answer self))
                     - _offset self)) as [pres|e] eqn:Hcall;
    try (apply binary64_call_pres_func_raises in Hcall; subst e);
    cbn [fst snd]; discriminate.
Qed.

Lemma no_checksum_no_unpack_error_witness :
  fst (Binary64.read_pa
         (constructed (mkI2C two_sample_sensor 0 []) _I2C_ADDRESS 1000
                      false 0))
  <> Raise unpack_error.
Proof.
  refine (proj1 (proj2 (no_checksum_no_unpack_error
            (constructed (mkI2C two_sample_sensor 0 []) _I2C_ADDRESS 1000
                         false 0) _ eq_refl))).
  apply (reach_init (mkI2C two_sample_sensor 0 []) _I2C_ADDRESS (PyInt 1000)
                    false 0).
  reflexivity.
Defined.

(** ** Shape of the transfer functions *)







(** ** Construction *)

(** X12. A successful construction performs its device initialisation on the
    bus it was given and nothing else: it appends the write 0B 00 and, only
    when checksums are enabled, the write 00 D0 49 18 02, both to the given
    address; it performs no block read, stores address, offset and checksum
    mode as given, and allocates a zeroed buffer of 3 bytes with checksums
    and 2 without. *)
Theorem init_bus_writes (i2c_obj : I2C) (address : Z) (pressure_range : pyval)
    (en : bool) (offset : Z) (self : D6F_PH) :
  __init__ i2c_obj address pressure_range en offset = Return self ->
  trace (_i2c self) =
    trace i2c_obj
    ++ Writeto address [x0b; x00]
       :: (if en then [Writeto address [x00; xd0; x49; x18; x02]] else [])
  /\ nreads (_i2c self) = nreads i2c_obj
  /\ sensor (_i2c self) = sensor i2c_obj
  /\ _addr self = address
  /\ _offset self = offset
  /\ en_crc self = en
  /\ _buffer self = repeat x00 (if en then 3 else 2)%nat.
Proof.
  intros Hinit.
  destruct (init_constructed _ _ _ _ _ _ Hinit) as (fs & _ & Hshape).
  rewrite Hshape in Hinit. injection Hinit as <-.
  unfold constructed, writeto, log.
  destruct en; cbn [_i2c trace nreads sensor _addr _offset en_crc _buffer];
    rewrite <- ?app_assoc; repeat split.
Qed.

Lemma init_bus_writes_witness :
  trace (_i2c (constructed (mkI2C midpoint_sensor 0 []) 0x6c 1000 true 0))
  = [] ++ [Writeto 0x6c [x0b; x00]; Writeto 0x6c [x00; xd0; x49; x18; x02]].
Proof.
  apply (init_bus_writes (mkI2C midpoint_sensor 0 []) 0x6c (PyStr "5050")
                         true 0).
  reflexivity.
Defined.

(** X13. A model string stands for its full-scale value: constructing with
    a string found in the range table gives exactly the driver that
    constructing with the table's number gives. *)
Theorem model_string_is_alias (i2c_obj : I2C) (address : Z) (s : string)
    (v : Z) (en : bool) (offset : Z) :
  dict_get _PRESSURE_RANGE s = Some v ->
  __init__ i2c_obj address (PyStr s) en offset
  = __init__ i2c_obj address (PyInt v) en offset
  /\ exists self, __init__ i2c_obj address (PyStr s) en offset = Return self
                  /\ _pres_range self = v.
Proof.
  intros Hget. rewrite init_str, init_int, Hget.
  assert (Hfs : is_full_scale v = true).
  { revert Hget. unfold _PRESSURE_RANGE. cbn [dict_get].
    repeat match goal with
           | |- context [String.eqb ?a ?b] => destruct (String.eqb a b)
           end; try discriminate; now intros [= <-]. }
  rewrite Hfs. split; [reflexivity|].
  eexists. split; [reflexivity|]. unfold constructed. now destruct en.
Qed.

Lemma model_string_is_alias_witness :
  __init__ (mkI2C midpoint_sensor 0 []) 0x6c (PyStr "0025") false 0
  = __init__ (mkI2C midpoint_sensor 0 []) 0x6c (PyInt 250) false 0.
Proof.
  apply (model_string_is_alias (mkI2C midpoint_sensor 0 []) 0x6c "0025" 250
                               false 0).
  reflexivity.
Defined.
